(** * Request shaping of the queue and blob data-plane operations

    A shallow embedding of [queues.SetMetaData], [blobs.AbortCopy] and of
    [metadata.SetIntoHeaders], with the Go packages they rely on.

    Conventions of the embedding.
    - A Go [string] is a sequence of bytes: [String.string].
    - A Go [error] is represented by its [Error()] text; the [nil] error is
      [None].  The verbs [%s], [%v] and [%+v] of [fmt] print a string or
      an error as that text.
    - A Go [map[string]string] is a [gmap string string]; the [nil] map
      and the empty map are not told apart (they behave alike under
      [range], lookup and [len]).
    - [context.Context] is only forwarded to [NewRequest] and [Execute];
      a [BaseClient] below stands for the base client under one context. *)

From Stdlib Require Import ZArith Ascii String List.
From stdpp Require Import base option gmap strings list fin_maps.

Local Open Scope string_scope.

(** ** Package [strings] of the Go standard library *)
Module strings.

(** [c < utf8.RuneSelf] *)
Definition isASCIIByte (c : ascii) : bool :=
  N.ltb (N_of_ascii c) 128.

(** ['A' <= c && c <= 'Z'] *)
Definition isUpperByte (c : ascii) : bool :=
  N.leb 65 (N_of_ascii c) && N.leb (N_of_ascii c) 90.

(** [c += 'a' - 'A'] when [c] is an upper-case letter *)
Definition lowerByte (c : ascii) : ascii :=
  if isUpperByte c then ascii_of_N (N_of_ascii c + 32) else c.

(** The two flags [ToLower] computes in its first loop. *)
Fixpoint isASCII (s : string) : bool :=
  match s with
  | EmptyString => true
  | String c s' => isASCIIByte c && isASCII s'
  end.

Fixpoint hasUpper (s : string) : bool :=
  match s with
  | EmptyString => false
  | String c s' => isUpperByte c || hasUpper s'
  end.

(** The byte loop of the ASCII path. *)
Fixpoint lowerBytes (s : string) : string :=
  match s with
  | EmptyString => EmptyString
  | String c s' => String (lowerByte c) (lowerBytes s')
  end.

Section ToLower.
(** [Map(unicode.ToLower, s)], the path taken for a string with a byte
    of [utf8.RuneSelf] or more; the Unicode case tables are the
    standard library's and stay a parameter. *)
Variable mapUnicodeToLower : string → string.

Definition ToLower (s : string) : string :=
  if isASCII s then
    if negb (hasUpper s) then s else lowerBytes s
  else mapUnicodeToLower s.
End ToLower.

End strings.

(** ** Package [odata] of the SDK *)
Module odata.
(** [odata.Query]; the operations here only ever return the [nil]
    pointer to it. *)
Record Query : Type := mkQuery { }.
End odata.

(** ** Package [client] of the SDK, at the boundary the operations use *)
Module client.

Abbreviation error := string (only parsing).

(** [Headers] and [QueryParams] wrap a [map[string]string]. *)
Abbreviation Headers := (gmap string string) (only parsing).
Abbreviation QueryParams := (gmap string string) (only parsing).

(** [Append] sets a single key. *)
Definition Headers_Append (key value : string) (h : Headers) : Headers :=
  <[key := value]> h.

Definition QueryParams_Append (key value : string) (q : QueryParams)
  : QueryParams :=
  <[key := value]> q.

(** [Merge] copies every entry of [other] into [h]. *)
Definition Headers_Merge (other : Headers) (h : Headers) : Headers :=
  map_fold (λ k v acc, <[k := v]> acc) h other.

(** The [Options] interface. *)
Class Options (T : Type) := {
  ToHeaders : T → Headers;
  ToOData : T → option odata.Query;
  ToQuery : T → QueryParams
}.

(** A value of interface type [Options]: some type with its methods. *)
Inductive OptionsValue : Type :=
| optionsValue {T : Type} {O : Options T} (obj : T).

Definition headersOf (o : OptionsValue) : Headers :=
  match o with optionsValue obj => ToHeaders obj end.

Definition odataOf (o : OptionsValue) : option odata.Query :=
  match o with optionsValue obj => ToOData obj end.

Definition queryOf (o : OptionsValue) : QueryParams :=
  match o with optionsValue obj => ToQuery obj end.

(** [RequestOptions], with the fields the operations set. *)
Record RequestOptions : Type := {
  ContentType : string;
  ExpectedStatusCodes : list Z;
  HttpMethod : string;
  OptionsObject : OptionsValue;
  Path : string
}.

(** [Request]: of its fields only [ValidStatusCodes] is looked at. *)
Record Request : Type := { ValidStatusCodes : list Z }.

(** [Response] embeds [*http.Response]; only its status is looked at. *)
Record Response : Type := { StatusCode : Z }.

(** A program over the two calls the operations make on the base
    client.  [NewRequest] answers with an error or a request;
    [Execute] answers with a response pointer and an error, either of
    which may be [nil]. *)
Inductive Prog (R : Type) : Type :=
| Ret (r : R)
| NewRequest (opts : RequestOptions) (k : error + Request → Prog R)
| Execute (req : Request) (k : option Response * option error → Prog R).
Arguments Ret {R} r.
Arguments NewRequest {R} opts k.
Arguments Execute {R} req k.

Fixpoint bind {A B} (p : Prog A) (f : A → Prog B) : Prog B :=
  match p with
  | Ret a => f a
  | NewRequest opts k => NewRequest opts (λ x, bind (k x) f)
  | Execute req k => Execute req (λ x, bind (k x) f)
  end.

#[global] Instance Prog_ret : MRet Prog := @Ret.
#[global] Instance Prog_bind : MBind Prog := λ A B f p, bind p f.

Definition callNewRequest (opts : RequestOptions) : Prog (error + Request) :=
  NewRequest opts Ret.

Definition callExecute (req : Request)
  : Prog (option Response * option error) :=
  Execute req Ret.

(** The base client, as the answers it gives to the two calls. *)
Record BaseClient : Type := {
  onNewRequest : RequestOptions → error + Request;
  onExecute : Request → option Response * option error
}.

(** What a run leaves behind on the base client's side. *)
Inductive Event : Type :=
| NewRequestCalled (opts : RequestOptions)
| ExecuteCalled (req : Request).

Fixpoint run {R} (c : BaseClient) (p : Prog R) : R * list Event :=
  match p with
  | Ret r => (r, [])
  | NewRequest opts k =>
      let '(r, log) := run c (k (onNewRequest c opts)) in
      (r, NewRequestCalled opts :: log)
  | Execute req k =>
      let '(r, log) := run c (k (onExecute c req)) in
      (r, ExecuteCalled req :: log)
  end.

Definition result {R} (c : BaseClient) (p : Prog R) : R := fst (run c p).
Definition calls {R} (c : BaseClient) (p : Prog R) : list Event :=
  snd (run c p).

(** The executor's side of the boundary.  The request keeps the
    descriptor's expected status codes as its valid ones; [Execute]
    answers without an error for a response whose status is one of them,
    with an error and the response for any other status, and with an
    error alone when the transport fails. *)
Record ChecksStatus (c : BaseClient) : Prop := {
  request_keeps_codes : ∀ opts req,
    onNewRequest c opts = inr req →
    ValidStatusCodes req = ExpectedStatusCodes opts;
  execute_checks_status : ∀ req,
    match onExecute c req with
    | (Some r, None) => StatusCode r ∈ ValidStatusCodes req
    | (Some r, Some _) => StatusCode r ∉ ValidStatusCodes req
    | (None, Some _) => True
    | (None, None) => False
    end
}.

(** A simulated service that answers every request with one status. *)
Definition simulated (status : Z) : BaseClient := {|
  onNewRequest opts := inr {| ValidStatusCodes := ExpectedStatusCodes opts |};
  onExecute req :=
    let r := {| StatusCode := status |} in
    if decide (status ∈ ValidStatusCodes req) then (Some r, None)
    else (Some r, Some "unexpected status")
|}.

(** A base client that cannot build a request. *)
Definition failsBuilding (err : error) : BaseClient := {|
  onNewRequest opts := inl err;
  onExecute req := (None, Some "no request")
|}.

(** A base client whose transport fails. *)
Definition failsExecuting (err : error) : BaseClient := {|
  onNewRequest opts := inr {| ValidStatusCodes := ExpectedStatusCodes opts |};
  onExecute req := (None, Some err)
|}.

End client.

(** ** Package [metadata] *)
Module metadata.
Import client.

(** [SetIntoHeaders] sets the provided metadata into the headers. *)
Definition SetIntoHeaders (metaData : gmap string string) : Headers :=
  map_fold
    (λ k v headers, Headers_Append ("x-ms-meta-" +:+ k) v headers)
    ∅ metaData.

(** The same loop with the entries visited in a given order: the order
    in which Go's [range] visits a map is not specified. *)
Definition SetIntoHeaders_in_order (entries : list (string * string))
  : Headers :=
  fold_left
    (λ headers kv, Headers_Append ("x-ms-meta-" +:+ kv.1) kv.2 headers)
    entries ∅.

(** Modelled from the spec: [metadata.SetMetaDataHeaders], which
    [setMetaDataOptions.ToHeaders] calls, is not among the sources.  The
    spec: one header per metadata entry, each named with a fixed
    [x-ms-meta-] prefix followed by the key, value passed through
    unescaped. *)
Definition SetMetaDataHeaders (metaData : gmap string string) : Headers :=
  kmap (String.append "x-ms-meta-") metaData.

End metadata.

(** ** Package [queues] *)
Module queues.
Import client.

Record SetMetaDataResponse : Type := {
  HttpResponse : option Response
}.

Record SetMetaDataInput : Type := {
  MetaData : gmap string string
}.

Record setMetaDataOptions : Type := {
  metadata : gmap string string
}.

#[global] Instance setMetaDataOptions_Options : Options setMetaDataOptions := {
  ToHeaders s := Headers_Merge (metadata.SetMetaDataHeaders (metadata s)) ∅;
  ToOData s := None;
  ToQuery s := QueryParams_Append "comp" "metadata" ∅
}.

Section SetMetaData.
(** The Unicode path of [strings.ToLower]. *)
Variable mapUnicodeToLower : string → string.
(** [metadata.Validate], which is not among the sources: any validator. *)
Variable Validate : gmap string string → option error.

Definition SetMetaData (queueName : string) (input : SetMetaDataInput)
  : Prog (SetMetaDataResponse * option error) :=
  let resp := {| HttpResponse := None |} in
  if decide (queueName = "") then
    mret (resp, Some "`queueName` cannot be an empty string")
  else if decide (strings.ToLower mapUnicodeToLower queueName ≠ queueName) then
    mret (resp, Some "`queueName` must be a lower-cased string")
  else match Validate (MetaData input) with
  | Some err => mret (resp, Some ("`metadata` is not valid: " +:+ err))
  | None =>
    let opts := {|
      ContentType := "application/xml; charset=utf-8";
      ExpectedStatusCodes := [204%Z];
      HttpMethod := "PUT";
      OptionsObject := optionsValue {| metadata := MetaData input |};
      Path := "/" +:+ queueName
    |} in
    r ← callNewRequest opts;
    match r with
    | inl err => mret (resp, Some ("building request: " +:+ err))
    | inr req =>
      '(httpResponse, err) ← callExecute req;
      let resp := {| HttpResponse := httpResponse |} in
      match err with
      | Some err => mret (resp, Some ("executing request: " +:+ err))
      | None => mret (resp, None)
      end
    end
  end.

End SetMetaData.
End queues.

(** ** Package [blobs] *)
Module blobs.
Import client.

Record AbortCopyInput : Type := {
  (** The Copy ID which should be aborted *)
  CopyID : string;
  (** The ID of the Lease, a pointer that may be [nil] *)
  LeaseID : option string
}.

Record CopyAbortResponse : Type := {
  HttpResponse : option Response
}.

Record copyAbortOptions : Type := {
  input : AbortCopyInput
}.

#[global] Instance copyAbortOptions_Options : Options copyAbortOptions := {
  ToHeaders c :=
    let headers := Headers_Append "x-ms-copy-action" "abort" ∅ in
    match LeaseID (input c) with
    | Some leaseID => Headers_Append "x-ms-lease-id" leaseID headers
    | None => headers
    end;
  ToOData c := None;
  ToQuery c :=
    QueryParams_Append "copyid" (CopyID (input c))
      (QueryParams_Append "comp" "copy" ∅)
}.

Section AbortCopy.
Variable mapUnicodeToLower : string → string.

Definition AbortCopy (containerName blobName : string) (input : AbortCopyInput)
  : Prog (CopyAbortResponse * option error) :=
  let resp := {| HttpResponse := None |} in
  if decide (containerName = "") then
    mret (resp, Some "`containerName` cannot be an empty string")
  else if decide (strings.ToLower mapUnicodeToLower containerName ≠ containerName) then
    mret (resp, Some "`containerName` must be a lower-cased string")
  else if decide (blobName = "") then
    mret (resp, Some "`blobName` cannot be an empty string")
  else if decide (CopyID input = "") then
    mret (resp, Some "`input.CopyID` cannot be an empty string")
  else
    let opts := {|
      ContentType := "";
      ExpectedStatusCodes := [204%Z];
      HttpMethod := "PUT";
      OptionsObject := optionsValue {| input := input |};
      Path := "/" +:+ containerName +:+ "/" +:+ blobName
    |} in
    r ← callNewRequest opts;
    match r with
    | inl err => mret (resp, Some ("building request: " +:+ err))
    | inr req =>
      '(httpResponse, err) ← callExecute req;
      let resp := {| HttpResponse := httpResponse |} in
      match err with
      | Some err => mret (resp, Some ("executing request: " +:+ err))
      | None => mret (resp, None)
      end
    end.

End AbortCopy.
End blobs.

(** ** Packages [directories] and [paths]: the client constructors *)
Module directories.
Import client.

(** [Client] is the base client for File Storage Shares. *)
Record Client : Type := { Client' : BaseClient }.

Section NewWithBaseUri.
(** [storage.NewBaseClient] of the SDK, and the package's
    [componentName] and [apiVersion], which are declared in files that
    are not among the sources. *)
Variable NewBaseClient : string → string → string → error + BaseClient.
Variables componentName apiVersion : string.

Definition NewWithBaseUri (baseUri : string) : option Client * option error :=
  match NewBaseClient baseUri componentName apiVersion with
  | inl err => (None, Some ("building base client: " +:+ err))
  | inr baseClient => (Some {| Client' := baseClient |}, None)
  end.

End NewWithBaseUri.
End directories.

Module paths.
Import client.

(** [Client] is the base client for Data Lake Storage Path. *)
Record Client : Type := { Client' : BaseClient }.

Section NewWithBaseUri.
Variable NewBaseClient : string → string → string → error + BaseClient.
Variables componentName apiVersion : string.

Definition NewWithBaseUri (baseUri : string) : option Client * option error :=
  match NewBaseClient baseUri componentName apiVersion with
  | inl err => (None, Some ("building base client: " +:+ err))
  | inr baseClient => (Some {| Client' := baseClient |}, None)
  end.

End NewWithBaseUri.
End paths.

(** ** Package [testhelpers]: provisioning of the test resources *)

(** [time.Second], in nanoseconds. *)
Module time.
Definition Second : Z := 1000000000.
End time.

(** [resources.Group], with the one field that is set. *)
Module resources.
Record Group : Type := { Location : option string }.
End resources.

(** [commonids.StorageAccountId], as the three names it is built from. *)
Module commonids.
Record StorageAccountId : Type := {
  SubscriptionId : string;
  ResourceGroupName : string;
  StorageAccountName : string
}.

Definition NewStorageAccountID (subscriptionId resourceGroupName
                                storageAccountName : string)
  : StorageAccountId :=
  {| SubscriptionId := subscriptionId;
     ResourceGroupName := resourceGroupName;
     StorageAccountName := storageAccountName |}.
End commonids.

(** The types of [storageaccounts] the helpers fill in or read, with
    the fields they touch; a field left out is left at its zero value
    by the helpers.  [Kind], [SkuName], [AccessTier] and
    [PublicNetworkAccess] are string types. *)
Module storageaccounts.

Record StorageAccountPropertiesCreateParameters : Type := {
  AccessTier : option string;
  AllowBlobPublicAccess : option bool;
  IsHnsEnabled : option bool;
  PublicNetworkAccess : option string
}.

Record Sku : Type := { Name : string }.

Record StorageAccountCreateParameters : Type := {
  Kind : string;
  Location : string;
  Properties : option StorageAccountPropertiesCreateParameters;
  Sku' : Sku
}.

Record ListKeysOperationOptions : Type := mkListKeysOperationOptions { }.

Record StorageAccountKey : Type := { Value : option string }.

Record StorageAccountListKeysResult : Type := {
  Keys : option (list StorageAccountKey)
}.

Record ListKeysOperationResponse : Type := {
  Model : option StorageAccountListKeysResult
}.

(** The constants of the package the helpers name, and the quoting that
    the verb [%q] of [fmt] applies to a string; their values are the
    SDK's and the standard library's. *)
Class Constants : Type := {
  KindBlobStorage : string;
  SkuNameStandardLRS : string;
  AccessTierHot : string;
  PublicNetworkAccessEnabled : string;
  Quote : string → string
}.

End storageaccounts.

Module testhelpers.
Import storageaccounts.
Abbreviation error := string (only parsing).

(** Of the fields of [Client] the helpers read [SubscriptionId]; the two
    service clients are the other side of the calls below. *)
Record Client : Type := { SubscriptionId : string }.

Record TestResources : Type := {
  ResourceGroup : string;
  StorageAccountName : string;
  StorageAccountKey' : string
}.

(** The future [ResourceGroupsClient.Delete] returns, an opaque handle. *)
Inductive GroupsDeleteFuture : Type :=
| groupsDeleteFuture (handle : nat).

(** The calls the helpers make.  Where the helpers drop the first
    result of a call, only the error is kept in its answer. *)
Inductive Call : Type :=
| Getenv (key : string)
| GroupsCreateOrUpdate (resourceGroup : string) (parameters : resources.Group)
| AccountsCreateThenPoll (id : commonids.StorageAccountId)
    (payload : StorageAccountCreateParameters)
| AccountsListKeys (id : commonids.StorageAccountId)
    (options : ListKeysOperationOptions)
| Sleep (d : Z)
| AccountsDelete (id : commonids.StorageAccountId)
| GroupsDelete (resourceGroup : string)
| WaitForCompletionRef (future : GroupsDeleteFuture).

(** The type of the answer to each call. *)
Definition Answer (c : Call) : Type :=
  match c with
  | Getenv _ => string
  | GroupsCreateOrUpdate _ _ => option error
  | AccountsCreateThenPoll _ _ => option error
  | AccountsListKeys _ _ => (ListKeysOperationResponse * option error)%type
  | Sleep _ => unit
  | AccountsDelete _ => option error
  | GroupsDelete _ => (GroupsDeleteFuture * option error)%type
  | WaitForCompletionRef _ => option error
  end.

(** A helper as a program over these calls; [Panic] is a run-time panic
    (a [nil] dereference, an index out of range). *)
Inductive Prog (R : Type) : Type :=
| Ret (r : R)
| Panic
| Vis (c : Call) (k : Answer c → Prog R).
Arguments Ret {R} r.
Arguments Panic {R}.
Arguments Vis {R} c k.

Fixpoint bind {A B} (p : Prog A) (f : A → Prog B) : Prog B :=
  match p with
  | Ret a => f a
  | Panic => Panic
  | Vis c k => Vis c (λ x, bind (k x) f)
  end.

#[global] Instance Prog_ret : MRet Prog := @Ret.
#[global] Instance Prog_bind : MBind Prog := λ A B f p, bind p f.

Definition call (c : Call) : Prog (Answer c) := Vis c Ret.

(** The services and the process environment, as their answers. *)
Definition Services : Type := ∀ c : Call, Answer c.

Inductive Outcome (R : Type) : Type :=
| Returned (r : R)
| Panicked.
Arguments Returned {R} r.
Arguments Panicked {R}.

(** The outcome of a run and the calls it made, in order. *)
Fixpoint run {R} (s : Services) (p : Prog R) : Outcome R * list Call :=
  match p with
  | Ret r => (Returned r, [])
  | Panic => (Panicked, [])
  | Vis c k => let '(o, log) := run s (k (s c)) in (o, c :: log)
  end.

Section Helpers.
Context `{Constants}.

Definition buildTestResources (c : Client) (resourceGroup name : string)
  (kind : string) (enableHns : bool) (sku : string)
  : Prog (option TestResources * option error) :=
  location ← call (Getenv "ARM_TEST_LOCATION");
  err ← call (GroupsCreateOrUpdate resourceGroup
                {| resources.Location := Some location |});
  match err with
  | Some err =>
      mret (None, Some ("error creating Resource Group " +:+ Quote resourceGroup
                        +:+ ": " +:+ err))
  | None =>
    let accessTier :=
      if decide (kind = KindBlobStorage) then Some AccessTierHot else None in
    let isHnsEnabled := if enableHns then Some enableHns else None in
    let props := {|
      AccessTier := accessTier;
      AllowBlobPublicAccess := Some true;
      IsHnsEnabled := isHnsEnabled;
      PublicNetworkAccess := Some PublicNetworkAccessEnabled
    |} in
    let sku := if decide (sku = "") then SkuNameStandardLRS else sku in
    let payload := {|
      Kind := kind;
      Location := location;
      Properties := Some props;
      Sku' := {| Name := sku |}
    |} in
    let id := commonids.NewStorageAccountID (SubscriptionId c) resourceGroup name in
    err ← call (AccountsCreateThenPoll id payload);
    match err with
    | Some err =>
        mret (None, Some ("error creating Account " +:+ Quote name
                          +:+ " (Resource Group " +:+ Quote resourceGroup
                          +:+ "): " +:+ err))
    | None =>
      let options := mkListKeysOperationOptions in
      '(keys, err) ← call (AccountsListKeys id options);
      match err with
      | Some err =>
          mret (None, Some ("error listing keys for Storage Account "
                            +:+ Quote name +:+ " (Resource Group "
                            +:+ Quote resourceGroup +:+ "): " +:+ err))
      | None =>
        _ ← call (Sleep (5 * time.Second));
        match Model keys with
        | None => Panic
        | Some model =>
          match Keys model with
          | None => Panic
          | Some accountKeys =>
            match accountKeys with
            | [] => Panic
            | key :: _ =>
              match Value key with
              | None => Panic
              | Some value =>
                  mret (Some {| ResourceGroup := resourceGroup;
                                StorageAccountName := name;
                                StorageAccountKey' := value |}, None)
              end
            end
          end
        end
      end
    end
  end.




Definition DestroyTestResources (c : Client) (resourceGroup name : string)
  : Prog (option error) :=
  let accountId :=
    commonids.NewStorageAccountID (SubscriptionId c) resourceGroup name in
  err ← call (AccountsDelete accountId);
  match err with
  | Some err =>
      mret (Some ("error deleting Account " +:+ Quote name
                  +:+ " (Resource Group " +:+ Quote resourceGroup
                  +:+ "): " +:+ err))
  | None =>
    '(future, err) ← call (GroupsDelete resourceGroup);
    match err with
    | Some err =>
        mret (Some ("error deleting Resource Group " +:+ Quote resourceGroup
                    +:+ ": " +:+ err))
    | None =>
      err ← call (WaitForCompletionRef future);
      match err with
      | Some err =>
          mret (Some ("error waiting for deletion of Resource Group "
                      +:+ Quote resourceGroup +:+ ": " +:+ err))
      | None => mret None
      end
    end
  end.

End Helpers.
End testhelpers.

(** ** The scenarios of the specification, as concrete inputs *)
Module scenario.
Import client.

(** The names below are ASCII, so the Unicode path of [ToLower] is not
    taken; a byte-wise lower-casing stands in for it. *)
Definition mapUnicodeToLower : string → string := strings.lowerBytes.

(** Two validators: one accepts every mapping, one rejects every
    non-empty mapping. *)
Definition acceptAll (m : gmap string string) : option error := None.

Definition onlyEmpty (m : gmap string string) : option error :=
  if decide (m = ∅) then None else Some "metadata is not allowed".

Definition SetMetaData := queues.SetMetaData mapUnicodeToLower acceptAll.
Definition AbortCopy := blobs.AbortCopy mapUnicodeToLower.

Definition owner : queues.SetMetaDataInput :=
  {| queues.MetaData := {[ "owner" := "alice" ]} |}.

Definition abc123 : blobs.AbortCopyInput :=
  {| blobs.CopyID := "abc123"; blobs.LeaseID := None |}.

Definition leased (leaseID : string) : blobs.AbortCopyInput :=
  {| blobs.CopyID := "abc123"; blobs.LeaseID := Some leaseID |}.

End scenario.

(** ** Services for the test helpers, as concrete answers *)
Module provisioning.
Import storageaccounts testhelpers.

(** The constants with the values the SDK gives them; the quoting is
    that of a string of printable ASCII characters without quote or
    backslash. *)
Definition constants : Constants := {|
  KindBlobStorage := "BlobStorage";
  SkuNameStandardLRS := "Standard_LRS";
  AccessTierHot := "Hot";
  PublicNetworkAccessEnabled := "Enabled";
  Quote s := String (ascii_of_nat 34) (s +:+ String (ascii_of_nat 34) "")
|}.

Definition account : Client := {| SubscriptionId := "sub-1" |}.

(** Services that answer every call without an error and list the
    given keys. *)
Definition healthy (keys : ListKeysOperationResponse) : Services :=
  λ c,
    match c return Answer c with
    | Getenv _ => "westeurope"
    | GroupsCreateOrUpdate _ _ => None
    | AccountsCreateThenPoll _ _ => None
    | AccountsListKeys _ _ => (keys, None)
    | Sleep _ => tt
    | AccountsDelete _ => None
    | GroupsDelete _ => (groupsDeleteFuture 7, None)
    | WaitForCompletionRef _ => None
    end.

(** Services on which the creation, and the deletion, of a resource
    group fails. *)
Definition groupsFail (err : string) : Services :=
  λ c,
    match c return Answer c with
    | Getenv _ => "westeurope"
    | GroupsCreateOrUpdate _ _ => Some err
    | AccountsCreateThenPoll _ _ => None
    | AccountsListKeys _ _ => ({| Model := None |}, None)
    | Sleep _ => tt
    | AccountsDelete _ => None
    | GroupsDelete _ => (groupsDeleteFuture 7, Some err)
    | WaitForCompletionRef _ => None
    end.

Definition twoKeys : ListKeysOperationResponse :=
  {| Model := Some {| Keys := Some [ {| Value := Some "key-1" |};
                                     {| Value := Some "key-2" |} ] |} |}.

Definition noKeys : ListKeysOperationResponse :=
  {| Model := Some {| Keys := Some [] |} |}.

(** The account a general-purpose [StorageV2] request in [westeurope]
    comes to, with or without the hierarchical namespace. *)
Definition accountId : commonids.StorageAccountId :=
  commonids.NewStorageAccountID "sub-1" "rg-1" "account1".

Definition standardAccount (hns : option bool)
  : StorageAccountCreateParameters := {|
  Kind := "StorageV2";
  Location := "westeurope";
  Properties := Some {|
    AccessTier := None;
    AllowBlobPublicAccess := Some true;
    IsHnsEnabled := hns;
    PublicNetworkAccess := Some "Enabled"
  |};
  Sku' := {| Name := "Standard_LRS" |}
|}.

End provisioning.

(** * Properties *)

(** ** [strings.ToLower] on ASCII names *)
Section ToLowerFacts.
Import strings.
Variable mapUnicodeToLower : string → string.

Lemma lowerByte_upper c : isUpperByte c = true → lowerByte c ≠ c.
Proof.
  intros Hup. unfold lowerByte. rewrite Hup. intros Heq.
  apply (f_equal N_of_ascii) in Heq.
  unfold isUpperByte in Hup. apply andb_true_iff in Hup as [_ Hle].
  apply N.leb_le in Hle.
  rewrite N_ascii_embedding in Heq by lia. lia.
Qed.

Lemma lowerBytes_hasUpper s : hasUpper s = true → lowerBytes s ≠ s.
Proof.
  induction s as [|c s IH]; simpl; [done|].
  intros Hup Heq. injection Heq as Hc Hs.
  apply orb_true_iff in Hup as [Hup|Hup].
  - by apply (lowerByte_upper c).
  - by apply IH.
Qed.

Lemma ToLower_ascii_upper s :
  isASCII s = true → hasUpper s = true → ToLower mapUnicodeToLower s ≠ s.
Proof.
  intros Ha Hu. unfold ToLower. rewrite Ha, Hu. simpl.
  by apply lowerBytes_hasUpper.
Qed.

Lemma ToLower_ascii_lower s :
  isASCII s = true → hasUpper s = false → ToLower mapUnicodeToLower s = s.
Proof. intros Ha Hu. unfold ToLower. by rewrite Ha, Hu. Qed.

End ToLowerFacts.

(** ** Metadata headers *)
Section MetadataFacts.
Import client metadata.

Local Abbreviation prefixed := (String.append "x-ms-meta-").

Lemma SetIntoHeaders_kmap (m : gmap string string) :
  SetIntoHeaders m = kmap prefixed m.
Proof.
  unfold SetIntoHeaders.
  apply (map_fold_weak_ind (λ r m, r = kmap prefixed m)).
  - by rewrite kmap_empty.
  - intros k v m' r Hk ->. unfold Headers_Append.
    by rewrite (kmap_insert prefixed).
Qed.

Lemma SetIntoHeaders_SetMetaDataHeaders (m : gmap string string) :
  SetIntoHeaders m = SetMetaDataHeaders m.
Proof. apply SetIntoHeaders_kmap. Qed.

Lemma Headers_Merge_union (other h : gmap string string) :
  Headers_Merge other h = other ∪ h.
Proof.
  unfold Headers_Merge.
  apply (map_fold_weak_ind (λ r m, r = m ∪ h)).
  - by rewrite (left_id_L ∅ (∪)).
  - intros k v m' r Hk ->. by rewrite insert_union_l.
Qed.

Lemma Headers_Merge_into_empty (other : gmap string string) :
  Headers_Merge other ∅ = other.
Proof. by rewrite Headers_Merge_union, (right_id_L ∅ (∪)). Qed.

Lemma size_kmap_prefixed (m : gmap string string) :
  size (kmap (M2 := gmap string) prefixed m) = size m.
Proof.
  rewrite <- !length_map_to_list.
  rewrite (map_to_list_kmap prefixed). by rewrite length_fmap.
Qed.

Lemma lookup_prefixed_Some (m : gmap string string) (h v : string) :
  kmap (M2 := gmap string) prefixed m !! h = Some v
  ↔ ∃ k, h = "x-ms-meta-" +:+ k ∧ m !! k = Some v.
Proof. apply (lookup_kmap_Some prefixed). Qed.

(** The order in which the entries are visited does not matter. *)
Lemma SetIntoHeaders_fold_left (l : list (string * string)) (h : gmap string string) :
  fold_left (λ headers kv, Headers_Append ("x-ms-meta-" +:+ kv.1) kv.2 headers) l h
  = list_to_map (reverse (prod_map prefixed id <$> l)) ∪ h.
Proof.
  revert h. induction l as [|[k v] l IH]; intros h.
  - simpl. by rewrite (left_id_L ∅ (∪)).
  - cbn [fold_left]. rewrite IH, fmap_cons, reverse_cons, list_to_map_app.
    rewrite <- (assoc_L (∪)). f_equal.
    unfold Headers_Append. simpl.
    by rewrite insert_empty, <- insert_union_singleton_l.
Qed.

Lemma SetIntoHeaders_any_order (m : gmap string string) (l : list (string * string)) :
  l ≡ₚ map_to_list m → SetIntoHeaders_in_order l = SetIntoHeaders m.
Proof.
  intros Hperm. unfold SetIntoHeaders_in_order.
  rewrite SetIntoHeaders_fold_left, (right_id_L ∅ (∪)), SetIntoHeaders_kmap.
  unfold kmap. apply list_to_map_proper.
  - rewrite reverse_Permutation, <- list_fmap_compose.
    apply (NoDup_fmap_2_strong (λ kv, prefixed kv.1)).
    + intros [k1 v1] [k2 v2] H1 H2 Heq. simpl in Heq.
      apply (inj prefixed) in Heq as ->.
      rewrite Hperm in H1, H2. apply elem_of_map_to_list in H1, H2.
      congruence.
    + rewrite Hperm. apply NoDup_map_to_list.
  - by rewrite reverse_Permutation, Hperm.
Qed.

(** The headers of a set-metadata options object, for any mapping it
    may hold: one header per entry under the prefixed key, nothing
    else, and the same headers as [metadata.SetIntoHeaders] builds in
    whatever order [range] visits the entries. *)
Lemma setMetaDataOptions_ToHeaders (m : gmap string string) :
  let headers := ToHeaders {| queues.metadata := m |} in
  (∀ k, headers !! ("x-ms-meta-" +:+ k) = m !! k)
  ∧ (∀ name v,
       headers !! name = Some v
       ↔ ∃ k, name = "x-ms-meta-" +:+ k ∧ m !! k = Some v)
  ∧ size headers = size m
  ∧ SetIntoHeaders m = headers
  ∧ (∀ entries, entries ≡ₚ map_to_list m →
       SetIntoHeaders_in_order entries = headers).
Proof.
  simpl. rewrite Headers_Merge_into_empty. unfold SetMetaDataHeaders.
  split_and!.
  - intros k. apply (lookup_kmap prefixed).
  - apply lookup_prefixed_Some.
  - apply size_kmap_prefixed.
  - apply SetIntoHeaders_kmap.
  - intros entries Hperm. rewrite <- SetIntoHeaders_kmap.
    by apply SetIntoHeaders_any_order.
Qed.

End MetadataFacts.

(** ** The two operations, run against any base client *)
Section OperationFacts.
Import client.
Variable mapUnicodeToLower : string → string.
Variable Validate : gmap string string → option error.

Local Abbreviation ToLower := (strings.ToLower mapUnicodeToLower).
Local Abbreviation SetMetaData := (queues.SetMetaData mapUnicodeToLower Validate).
Local Abbreviation AbortCopy := (blobs.AbortCopy mapUnicodeToLower).

(** The descriptor [SetMetaData] hands to [NewRequest]. *)
Local Abbreviation setMetaDataRequest queueName input := {|
  ContentType := "application/xml; charset=utf-8";
  ExpectedStatusCodes := [204%Z];
  HttpMethod := "PUT";
  OptionsObject := optionsValue {| queues.metadata := queues.MetaData input |};
  Path := "/" +:+ queueName
|}.

(** The descriptor [AbortCopy] hands to [NewRequest]. *)
Local Abbreviation abortCopyRequest containerName blobName input := {|
  ContentType := "";
  ExpectedStatusCodes := [204%Z];
  HttpMethod := "PUT";
  OptionsObject := optionsValue {| blobs.input := input |};
  Path := "/" +:+ containerName +:+ "/" +:+ blobName
|}.

(** How an error of [Execute] is passed on. *)
Local Abbreviation executing err :=
  (match err with
   | Some e => Some ("executing request: " +:+ e)
   | None => None
   end).

Lemma SetMetaData_rejected queueName input :
  queueName = "" ∨ ToLower queueName ≠ queueName
    ∨ is_Some (Validate (queues.MetaData input)) →
  ∃ msg,
    SetMetaData queueName input
      = Ret ({| queues.HttpResponse := None |}, Some msg)
    ∧ (msg = "`queueName` cannot be an empty string"
       ∨ msg = "`queueName` must be a lower-cased string"
       ∨ ∃ err, Validate (queues.MetaData input) = Some err
                ∧ msg = "`metadata` is not valid: " +:+ err).
Proof.
  intros Hbad. unfold queues.SetMetaData.
  destruct (decide (queueName = "")); [eauto|].
  destruct (decide (ToLower queueName ≠ queueName)); [eauto|].
  destruct (Validate (queues.MetaData input)) as [err|] eqn:Hv; [eauto 7|].
  destruct Hbad as [?|[?|[? ?]]]; done.
Qed.

Lemma SetMetaData_accepted c queueName input :
  queueName ≠ "" → ToLower queueName = queueName →
  Validate (queues.MetaData input) = None →
  run c (SetMetaData queueName input)
  = let opts := setMetaDataRequest queueName input in
    match onNewRequest c opts with
    | inl err =>
        (({| queues.HttpResponse := None |}, Some ("building request: " +:+ err)),
         [NewRequestCalled opts])
    | inr req =>
        (({| queues.HttpResponse := (onExecute c req).1 |},
          executing (onExecute c req).2),
         [NewRequestCalled opts; ExecuteCalled req])
    end.
Proof.
  intros Hne Hlow Hv. unfold queues.SetMetaData.
  destruct (decide (queueName = "")); [done|].
  destruct (decide (ToLower queueName ≠ queueName)); [done|].
  rewrite Hv. cbn.
  destruct (onNewRequest c _) as [err|req]; cbn; [done|].
  by destruct (onExecute c req) as [httpResponse [err|]].
Qed.

Lemma AbortCopy_rejected containerName blobName input :
  containerName = "" ∨ ToLower containerName ≠ containerName
    ∨ blobName = "" ∨ blobs.CopyID input = "" →
  ∃ msg,
    AbortCopy containerName blobName input
      = Ret ({| blobs.HttpResponse := None |}, Some msg)
    ∧ (msg = "`containerName` cannot be an empty string"
       ∨ msg = "`containerName` must be a lower-cased string"
       ∨ msg = "`blobName` cannot be an empty string"
       ∨ msg = "`input.CopyID` cannot be an empty string").
Proof.
  intros Hbad. unfold blobs.AbortCopy.
  destruct (decide (containerName = "")); [eauto|].
  destruct (decide (ToLower containerName ≠ containerName)); [eauto|].
  destruct (decide (blobName = "")); [eauto 7|].
  destruct (decide (blobs.CopyID input = "")); [eauto 7|].
  destruct Hbad as [?|[?|[?|?]]]; done.
Qed.

Lemma AbortCopy_accepted c containerName blobName input :
  containerName ≠ "" → ToLower containerName = containerName →
  blobName ≠ "" → blobs.CopyID input ≠ "" →
  run c (AbortCopy containerName blobName input)
  = let opts := abortCopyRequest containerName blobName input in
    match onNewRequest c opts with
    | inl err =>
        (({| blobs.HttpResponse := None |}, Some ("building request: " +:+ err)),
         [NewRequestCalled opts])
    | inr req =>
        (({| blobs.HttpResponse := (onExecute c req).1 |},
          executing (onExecute c req).2),
         [NewRequestCalled opts; ExecuteCalled req])
    end.
Proof.
  intros Hc Hlow Hb Hid. unfold blobs.AbortCopy.
  destruct (decide (containerName = "")); [done|].
  destruct (decide (ToLower containerName ≠ containerName)); [done|].
  destruct (decide (blobName = "")); [done|].
  destruct (decide (blobs.CopyID input = "")); [done|].
  cbn.
  destruct (onNewRequest c _) as [err|req]; cbn; [done|].
  by destruct (onExecute c req) as [httpResponse [err|]].
Qed.

(** A log that starts with a call to [NewRequest] tells that validation
    passed, and which descriptor was handed over. *)
Lemma SetMetaData_called c queueName input opts rest :
  calls c (SetMetaData queueName input) = NewRequestCalled opts :: rest →
  queueName ≠ "" ∧ ToLower queueName = queueName
  ∧ Validate (queues.MetaData input) = None
  ∧ opts = setMetaDataRequest queueName input.
Proof.
  intros Hlog.
  destruct (decide (queueName = "")) as [Hq|Hq];
    [|destruct (decide (ToLower queueName = queueName)) as [Hl|Hl];
      [destruct (Validate (queues.MetaData input)) as [err|] eqn:Hv|]].
  1,2,4: destruct (SetMetaData_rejected queueName input) as (msg & Hret & _);
    [rewrite ?Hv; eauto|unfold calls in Hlog; by rewrite Hret in Hlog].
  unfold calls in Hlog. rewrite SetMetaData_accepted in Hlog by done.
  cbn zeta in Hlog.
  destruct (onNewRequest c _); simpl in Hlog; by simplify_eq.
Qed.

Lemma AbortCopy_called c containerName blobName input opts rest :
  calls c (AbortCopy containerName blobName input)
    = NewRequestCalled opts :: rest →
  containerName ≠ "" ∧ ToLower containerName = containerName
  ∧ blobName ≠ "" ∧ blobs.CopyID input ≠ ""
  ∧ opts = abortCopyRequest containerName blobName input.
Proof.
  intros Hlog.
  destruct (decide (containerName = "")) as [Hc|Hc];
    [|destruct (decide (ToLower containerName = containerName)) as [Hl|Hl];
      [destruct (decide (blobName = "")) as [Hb|Hb];
        [|destruct (decide (blobs.CopyID input = "")) as [Hi|Hi]]|]].
  1,2,3,5:
    destruct (AbortCopy_rejected containerName blobName input)
      as (msg & Hret & _);
    [eauto|unfold calls in Hlog; by rewrite Hret in Hlog].
  unfold calls in Hlog. rewrite AbortCopy_accepted in Hlog by done.
  cbn zeta in Hlog.
  destruct (onNewRequest c _); simpl in Hlog; by simplify_eq.
Qed.

Ltac no_further_request :=
  let Hin := fresh "Hin" in
  intros ? Hin;
  repeat (apply elem_of_cons in Hin as [Hin|Hin]; [discriminate|]);
  by apply elem_of_nil in Hin.

(** A call that passes validation hands its descriptor to [NewRequest],
    once. *)
Lemma SetMetaData_accepted_calls c queueName input :
  queueName ≠ "" → ToLower queueName = queueName →
  Validate (queues.MetaData input) = None →
  ∃ rest,
    calls c (SetMetaData queueName input)
      = NewRequestCalled (setMetaDataRequest queueName input) :: rest
    ∧ ∀ opts', NewRequestCalled opts' ∉ rest.
Proof.
  intros Hq Hl Hv. unfold calls.
  rewrite SetMetaData_accepted by done. cbn zeta.
  destruct (onNewRequest c _) as [err|req]; simpl snd;
    eexists; (split; [reflexivity|no_further_request]).
Qed.

Lemma AbortCopy_accepted_calls c containerName blobName input :
  containerName ≠ "" → ToLower containerName = containerName →
  blobName ≠ "" → blobs.CopyID input ≠ "" →
  ∃ rest,
    calls c (AbortCopy containerName blobName input)
      = NewRequestCalled (abortCopyRequest containerName blobName input)
        :: rest
    ∧ ∀ opts', NewRequestCalled opts' ∉ rest.
Proof.
  intros Hc Hl Hb Hi. unfold calls.
  rewrite AbortCopy_accepted by done. cbn zeta.
  destruct (onNewRequest c _) as [err|req]; simpl snd;
    eexists; (split; [reflexivity|no_further_request]).
Qed.

(** ** Validation *)

(** C1: a call to [SetMetaData] or [AbortCopy] whose input fails a
    validation check (empty queue, container or blob name, queue or
    container name that is not its own lower-casing, empty
    [input.CopyID], metadata rejected by the validator) returns at once
    one of the fixed descriptive errors, with the zero response; the
    program makes no call at all, so neither [NewRequest] nor [Execute]
    is invoked on any base client. *)
Theorem validation_failure_makes_no_call (c : BaseClient) :
  (∀ queueName input,
     queueName = "" ∨ ToLower queueName ≠ queueName
       ∨ is_Some (Validate (queues.MetaData input)) →
     ∃ msg,
       SetMetaData queueName input
         = Ret ({| queues.HttpResponse := None |}, Some msg)
       ∧ (msg = "`queueName` cannot be an empty string"
          ∨ msg = "`queueName` must be a lower-cased string"
          ∨ ∃ err, Validate (queues.MetaData input) = Some err
                   ∧ msg = "`metadata` is not valid: " +:+ err)
       ∧ calls c (SetMetaData queueName input) = [])
  ∧ (∀ containerName blobName input,
     containerName = "" ∨ ToLower containerName ≠ containerName
       ∨ blobName = "" ∨ blobs.CopyID input = "" →
     ∃ msg,
       AbortCopy containerName blobName input
         = Ret ({| blobs.HttpResponse := None |}, Some msg)
       ∧ (msg = "`containerName` cannot be an empty string"
          ∨ msg = "`containerName` must be a lower-cased string"
          ∨ msg = "`blobName` cannot be an empty string"
          ∨ msg = "`input.CopyID` cannot be an empty string")
       ∧ calls c (AbortCopy containerName blobName input) = []).
Proof.
  split.
  - intros queueName input Hbad.
    destruct (SetMetaData_rejected queueName input Hbad) as (msg & Hret & Hmsg).
    exists msg. split_and!; [done..|]. unfold calls. by rewrite Hret.
  - intros containerName blobName input Hbad.
    destruct (AbortCopy_rejected containerName blobName input Hbad)
      as (msg & Hret & Hmsg).
    exists msg. split_and!; [done..|]. unfold calls. by rewrite Hret.
Qed.

(** C9: when a run of [SetMetaData] or [AbortCopy] ends before
    [Execute] is called (validation failed, or [NewRequest] returned an
    error), the call returns an error and the zero response, whose
    [HttpResponse] is [nil]. *)
Theorem no_response_before_Execute (c : BaseClient) :
  (∀ queueName input,
     (∀ req, ExecuteCalled req ∉ calls c (SetMetaData queueName input)) →
     queues.HttpResponse (result c (SetMetaData queueName input)).1 = None
     ∧ is_Some (result c (SetMetaData queueName input)).2)
  ∧ (∀ containerName blobName input,
     (∀ req, ExecuteCalled req
               ∉ calls c (AbortCopy containerName blobName input)) →
     blobs.HttpResponse (result c (AbortCopy containerName blobName input)).1
       = None
     ∧ is_Some (result c (AbortCopy containerName blobName input)).2).
Proof.
  split.
  - intros queueName input Hlog.
    destruct (calls c (SetMetaData queueName input)) as [|[opts|req] rest] eqn:Hc.
    + unfold calls, result in *. unfold queues.SetMetaData in *.
      repeat case_decide; try (simpl; eauto; fail).
      destruct (Validate _); [simpl; eauto|].
      simpl in Hc. by destruct (run c _).
    + apply SetMetaData_called in Hc as Hv. destruct Hv as (? & ? & ? & ->).
      unfold calls, result in *.
      rewrite SetMetaData_accepted in * by done. cbn zeta in *.
      destruct (onNewRequest c _) as [err|req]; simpl in *; [eauto|].
      exfalso. apply (Hlog req). set_solver.
    + exfalso. apply (Hlog req). set_solver.
  - intros containerName blobName input Hlog.
    destruct (calls c (AbortCopy containerName blobName input))
      as [|[opts|req] rest] eqn:Hc.
    + unfold calls, result in *. unfold blobs.AbortCopy in *.
      repeat case_decide; try (simpl; eauto; fail).
      simpl in Hc. by destruct (run c _).
    + apply AbortCopy_called in Hc as Hv. destruct Hv as (? & ? & ? & ? & ->).
      unfold calls, result in *.
      rewrite AbortCopy_accepted in * by done. cbn zeta in *.
      destruct (onNewRequest c _) as [err|req]; simpl in *; [eauto|].
      exfalso. apply (Hlog req). set_solver.
    + exfalso. apply (Hlog req). set_solver.
Qed.

(** ** The request descriptors *)

Lemma copyAbortOptions_ToHeaders input :
  ToHeaders {| blobs.input := input |} !! "x-ms-copy-action" = Some "abort"
  ∧ ToHeaders {| blobs.input := input |} !! "x-ms-lease-id"
    = blobs.LeaseID input
  ∧ ∀ name, name ≠ "x-ms-copy-action" → name ≠ "x-ms-lease-id" →
      ToHeaders {| blobs.input := input |} !! name = None.
Proof.
  simpl. unfold Headers_Append.
  destruct (blobs.LeaseID input) as [leaseID|]; split_and!;
    try (intros name ? ?); by simplify_map_eq.
Qed.

(** C2: for an [AbortCopy] call that passes validation, the headers of
    the options object handed to [NewRequest] hold [x-ms-copy-action]
    with value [abort]; [x-ms-lease-id] holds the lease ID that
    [input.LeaseID] points to and is absent when the pointer is [nil];
    no other header is present. *)
Theorem AbortCopy_headers c containerName blobName input :
  containerName ≠ "" → ToLower containerName = containerName →
  blobName ≠ "" → blobs.CopyID input ≠ "" →
  ∃ opts rest,
    calls c (AbortCopy containerName blobName input)
      = NewRequestCalled opts :: rest
    ∧ headersOf (OptionsObject opts) !! "x-ms-copy-action" = Some "abort"
    ∧ headersOf (OptionsObject opts) !! "x-ms-lease-id" = blobs.LeaseID input
    ∧ (∀ name, name ≠ "x-ms-copy-action" → name ≠ "x-ms-lease-id" →
         headersOf (OptionsObject opts) !! name = None).
Proof.
  intros Hc Hl Hb Hi.
  destruct (AbortCopy_accepted_calls c containerName blobName input)
    as (rest & Hlog & _); [done..|].
  destruct (copyAbortOptions_ToHeaders input) as (Haction & Hlease & Hother).
  eexists _, rest. split; [exact Hlog|]. by split_and!.
Qed.

(** C3: for an [AbortCopy] call that passes validation, the one
    descriptor handed to [NewRequest] has method [PUT], path
    [/containerName/blobName], query parameters exactly [comp=copy] and
    [copyid=input.CopyID], and expected status codes exactly [204]. *)
Theorem AbortCopy_descriptor c containerName blobName input :
  containerName ≠ "" → ToLower containerName = containerName →
  blobName ≠ "" → blobs.CopyID input ≠ "" →
  ∃ opts rest,
    calls c (AbortCopy containerName blobName input)
      = NewRequestCalled opts :: rest
    ∧ (∀ opts', NewRequestCalled opts' ∉ rest)
    ∧ HttpMethod opts = "PUT"
    ∧ Path opts = "/" +:+ containerName +:+ "/" +:+ blobName
    ∧ queryOf (OptionsObject opts)
      = {[ "comp" := "copy"; "copyid" := blobs.CopyID input ]}
    ∧ odataOf (OptionsObject opts) = None
    ∧ ExpectedStatusCodes opts = [204%Z].
Proof.
  intros Hc Hl Hb Hi.
  destruct (AbortCopy_accepted_calls c containerName blobName input)
    as (rest & Hlog & Honce); [done..|].
  eexists _, rest. split; [exact Hlog|].
  split_and!; [exact Honce|reflexivity..].
Qed.

(** C4: for a [SetMetaData] call that passes validation, the one
    descriptor handed to [NewRequest] has method [PUT], path
    [/queueName], query parameters exactly [comp=metadata], content type
    [application/xml; charset=utf-8], and expected status codes exactly
    [204]. *)
Theorem SetMetaData_descriptor c queueName input :
  queueName ≠ "" → ToLower queueName = queueName →
  Validate (queues.MetaData input) = None →
  ∃ opts rest,
    calls c (SetMetaData queueName input) = NewRequestCalled opts :: rest
    ∧ (∀ opts', NewRequestCalled opts' ∉ rest)
    ∧ HttpMethod opts = "PUT"
    ∧ Path opts = "/" +:+ queueName
    ∧ queryOf (OptionsObject opts) = {[ "comp" := "metadata" ]}
    ∧ odataOf (OptionsObject opts) = None
    ∧ ContentType opts = "application/xml; charset=utf-8"
    ∧ ExpectedStatusCodes opts = [204%Z].
Proof.
  intros Hq Hl Hv.
  destruct (SetMetaData_accepted_calls c queueName input)
    as (rest & Hlog & Honce); [done..|].
  eexists _, rest. split; [exact Hlog|].
  split_and!; [exact Honce|reflexivity..].
Qed.

(** C10: [AbortCopy] does not look at what [input.LeaseID] points to.
    Whether a call is rejected depends on the two names and on
    [input.CopyID] alone; the [x-ms-lease-id] header is present exactly
    when the pointer is not [nil]; so a call with valid names and copy
    ID whose lease ID points to the empty string passes validation and
    hands over an options object with [x-ms-lease-id] set to the empty
    string. *)
Theorem AbortCopy_empty_LeaseID c containerName blobName input :
  ((∃ msg, AbortCopy containerName blobName input
           = Ret ({| blobs.HttpResponse := None |}, Some msg))
   ↔ containerName = "" ∨ ToLower containerName ≠ containerName
     ∨ blobName = "" ∨ blobs.CopyID input = "")
  ∧ (is_Some (ToHeaders {| blobs.input := input |} !! "x-ms-lease-id")
     ↔ is_Some (blobs.LeaseID input))
  ∧ (containerName ≠ "" → ToLower containerName = containerName →
     blobName ≠ "" → blobs.CopyID input ≠ "" →
     blobs.LeaseID input = Some "" →
     ∃ opts rest,
       calls c (AbortCopy containerName blobName input)
         = NewRequestCalled opts :: rest
       ∧ headersOf (OptionsObject opts) !! "x-ms-lease-id" = Some "").
Proof.
  split_and!.
  - split; [|intros Hbad;
             destruct (AbortCopy_rejected _ _ _ Hbad) as (msg & ? & _); eauto].
    intros [msg Hret]. unfold blobs.AbortCopy in Hret.
    repeat case_decide; try tauto. discriminate.
  - destruct (copyAbortOptions_ToHeaders input) as (_ & -> & _). done.
  - intros Hc Hl Hb Hi Hlease.
    destruct (AbortCopy_accepted_calls c containerName blobName input)
      as (rest & Hlog & _); [done..|].
    destruct (copyAbortOptions_ToHeaders input) as (_ & Hid & _).
    eexists _, rest. split; [exact Hlog|]. simpl in Hid |- *.
    by rewrite Hid, Hlease.
Qed.

(** ** Outcomes *)



(** C6, as the code has it: a [queueName] or [containerName] that is
    empty or is not its own lower-casing (as is every ASCII name with
    an upper-case letter), and a [blobName] that is empty, yield a
    validation error and no call on the base client.  The case of a
    [blobName] is not checked: with a valid container name and copy
    ID, every non-empty blob name goes on to [NewRequest]. *)
Theorem resource_name_checks (c : BaseClient) :
  (∀ queueName input,
     queueName = "" ∨ ToLower queueName ≠ queueName →
     (∃ msg, SetMetaData queueName input
             = Ret ({| queues.HttpResponse := None |}, Some msg))
     ∧ calls c (SetMetaData queueName input) = [])
  ∧ (∀ containerName blobName input,
     containerName = "" ∨ ToLower containerName ≠ containerName
       ∨ blobName = "" →
     (∃ msg, AbortCopy containerName blobName input
             = Ret ({| blobs.HttpResponse := None |}, Some msg))
     ∧ calls c (AbortCopy containerName blobName input) = [])
  ∧ (∀ name,
     strings.isASCII name = true → strings.hasUpper name = true →
     ToLower name ≠ name)
  ∧ (∀ containerName blobName input,
     containerName ≠ "" → ToLower containerName = containerName →
     blobs.CopyID input ≠ "" → blobName ≠ "" →
     ∃ opts rest,
       calls c (AbortCopy containerName blobName input)
         = NewRequestCalled opts :: rest).
Proof.
  split_and!.
  - intros queueName input Hbad.
    destruct (SetMetaData_rejected queueName input) as (msg & Hret & _);
      [tauto|].
    split; [eauto|]. unfold calls. by rewrite Hret.
  - intros containerName blobName input Hbad.
    destruct (AbortCopy_rejected containerName blobName input)
      as (msg & Hret & _); [tauto|].
    split; [eauto|]. unfold calls. by rewrite Hret.
  - apply ToLower_ascii_upper.
  - intros containerName blobName input Hc Hl Hi Hb.
    destruct (AbortCopy_accepted_calls c containerName blobName input)
      as (rest & Hlog & _); [done..|].
    eauto.
Qed.

(** C5: for every metadata mapping that a [SetMetaData] call is
    accepted with, the headers of the options object the call hands to
    [NewRequest] hold, under the name [x-ms-meta-] followed by the key,
    the value of each entry of [input.MetaData] as it is; every header
    present is the header of an entry, and there are as many headers as
    entries, so there is exactly one header per entry and no extra
    one.  [metadata.SetIntoHeaders] builds these same headers from
    [input.MetaData], in whatever order [range] visits the entries. *)
Theorem SetMetaData_metadata_headers c queueName input :
  queueName ≠ "" → ToLower queueName = queueName →
  Validate (queues.MetaData input) = None →
  ∃ opts rest,
    calls c (SetMetaData queueName input) = NewRequestCalled opts :: rest
    ∧ (∀ opts', NewRequestCalled opts' ∉ rest)
    ∧ (∀ k, headersOf (OptionsObject opts) !! ("x-ms-meta-" +:+ k)
            = queues.MetaData input !! k)
    ∧ (∀ name v,
         headersOf (OptionsObject opts) !! name = Some v
         ↔ ∃ k, name = "x-ms-meta-" +:+ k
                ∧ queues.MetaData input !! k = Some v)
    ∧ size (headersOf (OptionsObject opts)) = size (queues.MetaData input)
    ∧ metadata.SetIntoHeaders (queues.MetaData input)
      = headersOf (OptionsObject opts)
    ∧ (∀ entries, entries ≡ₚ map_to_list (queues.MetaData input) →
         metadata.SetIntoHeaders_in_order entries
         = headersOf (OptionsObject opts)).
Proof.
  intros Hq Hl Hv.
  destruct (SetMetaData_accepted_calls c queueName input)
    as (rest & Hlog & Honce); [done..|].
  destruct (setMetaDataOptions_ToHeaders (queues.MetaData input))
    as (Hentry & Honly & Hsize & Hsame & Horder).
  eexists _, rest. split; [exact Hlog|].
  split_and!; [exact Honce|exact Hentry|exact Honly|exact Hsize|exact Hsame
              |exact Horder].
Qed.

End OperationFacts.

(** ** The simulated clients *)
Section SimulatedClients.
Import client.


Lemma failsExecuting_ChecksStatus err : ChecksStatus (failsExecuting err).
Proof.
  split.
  - intros opts req Hreq. simpl in Hreq. by simplify_eq.
  - done.
Qed.

(** [SetMetaData(ctx, "myqueue", {"owner":"alice"})] against a simulated
    204: [PUT /myqueue?comp=metadata] with [x-ms-meta-owner: alice], and
    success. *)
Example SetMetaData_myqueue :
  ∃ opts req,
    run (simulated 204) (scenario.SetMetaData "myqueue" scenario.owner)
    = (({| queues.HttpResponse := Some {| StatusCode := 204 |} |}, None),
       [NewRequestCalled opts; ExecuteCalled req])
    ∧ HttpMethod opts = "PUT" ∧ Path opts = "/myqueue"
    ∧ queryOf (OptionsObject opts) = {[ "comp" := "metadata" ]}
    ∧ headersOf (OptionsObject opts) = {[ "x-ms-meta-owner" := "alice" ]}.
Proof. eexists _, _. split; [reflexivity|]. by split_and!. Qed.

(** [AbortCopy(ctx, "mycontainer", "myblob.txt", {CopyID:"abc123"})]:
    [PUT /mycontainer/myblob.txt?comp=copy&copyid=abc123] with
    [x-ms-copy-action: abort]; success on a simulated 204, an error
    with the response attached on a simulated 409. *)
Example AbortCopy_myblob :
  ∃ opts req,
    run (simulated 204)
      (scenario.AbortCopy "mycontainer" "myblob.txt" scenario.abc123)
    = (({| blobs.HttpResponse := Some {| StatusCode := 204 |} |}, None),
       [NewRequestCalled opts; ExecuteCalled req])
    ∧ result (simulated 409)
        (scenario.AbortCopy "mycontainer" "myblob.txt" scenario.abc123)
      = ({| blobs.HttpResponse := Some {| StatusCode := 409 |} |},
         Some "executing request: unexpected status")
    ∧ HttpMethod opts = "PUT" ∧ Path opts = "/mycontainer/myblob.txt"
    ∧ queryOf (OptionsObject opts)
      = {[ "comp" := "copy"; "copyid" := "abc123" ]}
    ∧ headersOf (OptionsObject opts) = {[ "x-ms-copy-action" := "abort" ]}.
Proof. eexists _, _. split; [reflexivity|]. by split_and!. Qed.

End SimulatedClients.

(** ** The theorems at concrete inputs *)
Section Instances.
Import client.

Local Abbreviation lower := scenario.mapUnicodeToLower.
Local Abbreviation ToLower := (strings.ToLower scenario.mapUnicodeToLower).

(** An upper-cased queue name, an empty blob name and rejected metadata
    are turned down without a call. *)
Lemma validation_failure_makes_no_call_witness :
  (ToLower "MyQueue" ≠ "MyQueue"
   ∧ calls (simulated 204) (scenario.SetMetaData "MyQueue" scenario.owner) = [])
  ∧ ("" = ""
     ∧ calls (simulated 204)
         (scenario.AbortCopy "mycontainer" "" scenario.abc123) = [])
  ∧ (is_Some (scenario.onlyEmpty (queues.MetaData scenario.owner))
     ∧ calls (simulated 204)
         (queues.SetMetaData lower scenario.onlyEmpty "myqueue" scenario.owner)
       = []).
Proof.
  destruct (validation_failure_makes_no_call lower scenario.acceptAll
              (simulated 204)) as [Hqueue Hblob].
  destruct (validation_failure_makes_no_call lower scenario.onlyEmpty
              (simulated 204)) as [Hmetadata _].
  assert (ToLower "MyQueue" ≠ "MyQueue") as Hupper by (vm_compute; discriminate).
  assert (is_Some (scenario.onlyEmpty (queues.MetaData scenario.owner)))
    as Hrejected by (eexists; reflexivity).
  split_and!.
  - exact Hupper.
  - destruct (Hqueue "MyQueue" scenario.owner) as (msg & _ & _ & Hcalls);
      [right; left; exact Hupper|exact Hcalls].
  - reflexivity.
  - destruct (Hblob "mycontainer" "" scenario.abc123) as (msg & _ & _ & Hcalls);
      [right; right; left; reflexivity|exact Hcalls].
  - exact Hrejected.
  - destruct (Hmetadata "myqueue" scenario.owner) as (msg & _ & _ & Hcalls);
      [right; right; exact Hrejected|exact Hcalls].
Defined.

(** A request that cannot be built, and a rejected name, leave no
    response behind. *)
Lemma no_response_before_Execute_witness :
  queues.HttpResponse
    (result (failsBuilding "no endpoint")
       (scenario.SetMetaData "myqueue" scenario.owner)).1 = None
  ∧ blobs.HttpResponse
      (result (failsBuilding "no endpoint")
         (scenario.AbortCopy "MyContainer" "myblob.txt" scenario.abc123)).1
    = None.
Proof.
  destruct (no_response_before_Execute lower scenario.acceptAll
              (failsBuilding "no endpoint")) as [Hqueue Hblob].
  split.
  - apply (Hqueue "myqueue" scenario.owner).
    intros req Hin. vm_compute in Hin.
    apply elem_of_cons in Hin as [Hin|Hin]; [discriminate|].
    by apply elem_of_nil in Hin.
  - apply (Hblob "MyContainer" "myblob.txt" scenario.abc123).
    intros req Hin. vm_compute in Hin. by apply elem_of_nil in Hin.
Defined.

Lemma AbortCopy_headers_witness :
  ∃ opts rest,
    calls (simulated 204)
      (scenario.AbortCopy "mycontainer" "myblob.txt" (scenario.leased "lease-1"))
      = NewRequestCalled opts :: rest
    ∧ headersOf (OptionsObject opts) !! "x-ms-copy-action" = Some "abort"
    ∧ headersOf (OptionsObject opts) !! "x-ms-lease-id" = Some "lease-1".
Proof.
  destruct (AbortCopy_headers lower (simulated 204)
              "mycontainer" "myblob.txt" (scenario.leased "lease-1"))
    as (opts & rest & Hlog & Haction & Hlease & _);
    [discriminate|reflexivity|discriminate|discriminate|].
  exists opts, rest. split_and!; [exact Hlog|exact Haction|exact Hlease].
Defined.

Lemma AbortCopy_descriptor_witness :
  ∃ opts rest,
    calls (simulated 204)
      (scenario.AbortCopy "mycontainer" "myblob.txt" scenario.abc123)
      = NewRequestCalled opts :: rest
    ∧ Path opts = "/mycontainer/myblob.txt"
    ∧ queryOf (OptionsObject opts)
      = {[ "comp" := "copy"; "copyid" := "abc123" ]}.
Proof.
  destruct (AbortCopy_descriptor lower (simulated 204)
              "mycontainer" "myblob.txt" scenario.abc123)
    as (opts & rest & Hlog & _ & _ & Hpath & Hquery & _);
    [discriminate|reflexivity|discriminate|discriminate|].
  exists opts, rest. split_and!; [exact Hlog|exact Hpath|exact Hquery].
Defined.

Lemma SetMetaData_descriptor_witness :
  ∃ opts rest,
    calls (simulated 204) (scenario.SetMetaData "myqueue" scenario.owner)
      = NewRequestCalled opts :: rest
    ∧ Path opts = "/myqueue"
    ∧ queryOf (OptionsObject opts) = {[ "comp" := "metadata" ]}
    ∧ ContentType opts = "application/xml; charset=utf-8".
Proof.
  destruct (SetMetaData_descriptor lower scenario.acceptAll (simulated 204)
              "myqueue" scenario.owner)
    as (opts & rest & Hlog & _ & _ & Hpath & Hquery & _ & Htype & _);
    [discriminate|reflexivity|reflexivity|].
  exists opts, rest.
  split_and!; [exact Hlog|exact Hpath|exact Hquery|exact Htype].
Defined.

Lemma SetMetaData_metadata_headers_witness :
  ∃ opts rest,
    calls (simulated 204) (scenario.SetMetaData "myqueue" scenario.owner)
      = NewRequestCalled opts :: rest
    ∧ headersOf (OptionsObject opts) !! "x-ms-meta-owner" = Some "alice"
    ∧ size (headersOf (OptionsObject opts)) = 1
    ∧ metadata.SetIntoHeaders_in_order [("owner", "alice")]
      = headersOf (OptionsObject opts).
Proof.
  destruct (SetMetaData_metadata_headers lower scenario.acceptAll
              (simulated 204) "myqueue" scenario.owner)
    as (opts & rest & Hlog & _ & Hentry & _ & Hsize & _ & Horder);
    [discriminate|reflexivity|reflexivity|].
  exists opts, rest. split_and!; [exact Hlog| |exact Hsize|].
  - etrans; [exact (Hentry "owner")|reflexivity].
  - apply Horder. simpl. rewrite map_to_list_singleton. reflexivity.
Defined.

(** A lease ID that points to the empty string goes out as an empty
    header. *)
Lemma AbortCopy_empty_LeaseID_witness :
  ∃ opts rest,
    calls (simulated 204)
      (scenario.AbortCopy "mycontainer" "myblob.txt" (scenario.leased ""))
      = NewRequestCalled opts :: rest
    ∧ headersOf (OptionsObject opts) !! "x-ms-lease-id" = Some "".
Proof.
  destruct (AbortCopy_empty_LeaseID lower (simulated 204)
              "mycontainer" "myblob.txt" (scenario.leased ""))
    as (_ & _ & Hempty).
  apply Hempty; [discriminate|reflexivity|discriminate|discriminate|reflexivity].
Defined.



Lemma resource_name_checks_witness :
  (ToLower "MyContainer" ≠ "MyContainer"
   ∧ calls (simulated 204)
       (scenario.AbortCopy "MyContainer" "myblob.txt" scenario.abc123) = [])
  ∧ ∃ opts rest,
      calls (simulated 204)
        (scenario.AbortCopy "mycontainer" "MyBlob.txt" scenario.abc123)
      = NewRequestCalled opts :: rest.
Proof.
  destruct (resource_name_checks lower scenario.acceptAll (simulated 204))
    as (_ & Hcontainer & Hascii & Hblob).
  assert (ToLower "MyContainer" ≠ "MyContainer") as Hupper
    by (apply Hascii; reflexivity).
  split.
  - split; [exact Hupper|].
    apply (Hcontainer "MyContainer" "myblob.txt" scenario.abc123).
    right; left. exact Hupper.
  - apply (Hblob "mycontainer" "MyBlob.txt" scenario.abc123);
      [discriminate|reflexivity|discriminate|discriminate].
Defined.

(** C6 as it is worded fails on a blob name: [MyBlob.txt] has
    upper-case letters, yet the call is not turned down; against a
    simulated 204 it builds and executes its request and succeeds. *)
Lemma upper_case_blobName_is_accepted :
  strings.hasUpper "MyBlob.txt" = true
  ∧ (∀ msg,
       scenario.AbortCopy "mycontainer" "MyBlob.txt" scenario.abc123
       ≠ Ret ({| blobs.HttpResponse := None |}, Some msg))
  ∧ length (calls (simulated 204)
              (scenario.AbortCopy "mycontainer" "MyBlob.txt" scenario.abc123))
    = 2
  ∧ result (simulated 204)
      (scenario.AbortCopy "mycontainer" "MyBlob.txt" scenario.abc123)
    = ({| blobs.HttpResponse := Some {| StatusCode := 204 |} |}, None).
Proof.
  split_and!; [reflexivity| |reflexivity|reflexivity].
  intros msg Hret. vm_compute in Hret. discriminate.
Qed.

End Instances.

(** * Further properties *)

(** ** The two operations: errors, calls and outcomes *)
Section OperationRuns.
Import client.
Variable mapUnicodeToLower : string → string.
Variable Validate : gmap string string → option error.

Local Abbreviation ToLower := (strings.ToLower mapUnicodeToLower).
Local Abbreviation SetMetaData := (queues.SetMetaData mapUnicodeToLower Validate).
Local Abbreviation AbortCopy := (blobs.AbortCopy mapUnicodeToLower).

(** X1: [SetMetaData] reports the first check that fails, in the order
    empty name, lower-casing, metadata: an empty name is reported
    whatever the metadata, a name that is not lower-cased is reported
    whatever the metadata, and the validator's error is reported only
    for a name that passed both checks. *)
Theorem SetMetaData_first_failing_check queueName input :
  (queueName = "" →
   SetMetaData queueName input
   = Ret ({| queues.HttpResponse := None |},
          Some "`queueName` cannot be an empty string"))
  ∧ (queueName ≠ "" → ToLower queueName ≠ queueName →
     SetMetaData queueName input
     = Ret ({| queues.HttpResponse := None |},
            Some "`queueName` must be a lower-cased string"))
  ∧ (∀ err,
     queueName ≠ "" → ToLower queueName = queueName →
     Validate (queues.MetaData input) = Some err →
     SetMetaData queueName input
     = Ret ({| queues.HttpResponse := None |},
            Some ("`metadata` is not valid: " +:+ err))).
Proof.
  unfold queues.SetMetaData. split_and!.
  - intros ->. reflexivity.
  - intros Hq Hl. by rewrite decide_False, decide_True.
  - intros err Hq Hl Hv. rewrite decide_False, decide_False by tauto.
    by rewrite Hv.
Qed.

(** X2: [AbortCopy] reports the first check that fails, in the order
    container name empty, container name not lower-cased, blob name
    empty, copy ID empty. *)
Theorem AbortCopy_first_failing_check containerName blobName input :
  (containerName = "" →
   AbortCopy containerName blobName input
   = Ret ({| blobs.HttpResponse := None |},
          Some "`containerName` cannot be an empty string"))
  ∧ (containerName ≠ "" → ToLower containerName ≠ containerName →
     AbortCopy containerName blobName input
     = Ret ({| blobs.HttpResponse := None |},
            Some "`containerName` must be a lower-cased string"))
  ∧ (containerName ≠ "" → ToLower containerName = containerName →
     blobName = "" →
     AbortCopy containerName blobName input
     = Ret ({| blobs.HttpResponse := None |},
            Some "`blobName` cannot be an empty string"))
  ∧ (containerName ≠ "" → ToLower containerName = containerName →
     blobName ≠ "" → blobs.CopyID input = "" →
     AbortCopy containerName blobName input
     = Ret ({| blobs.HttpResponse := None |},
            Some "`input.CopyID` cannot be an empty string")).
Proof.
  unfold blobs.AbortCopy. split_and!.
  - intros ->. reflexivity.
  - intros Hc Hl. by rewrite decide_False, decide_True.
  - intros Hc Hl Hb. rewrite decide_False, decide_False by tauto.
    by rewrite decide_True.
  - intros Hc Hl Hb Hi. rewrite decide_False, decide_False by tauto.
    by rewrite decide_False, decide_True.
Qed.

Lemma SetMetaData_valid_dec queueName input :
  (queueName ≠ "" ∧ ToLower queueName = queueName
   ∧ Validate (queues.MetaData input) = None)
  ∨ (queueName = "" ∨ ToLower queueName ≠ queueName
     ∨ is_Some (Validate (queues.MetaData input))).
Proof.
  destruct (decide (queueName = "")); [tauto|].
  destruct (decide (ToLower queueName = queueName)); [|tauto].
  destruct (Validate (queues.MetaData input)); [right|left]; eauto.
Qed.

Lemma AbortCopy_valid_dec containerName blobName input :
  (containerName ≠ "" ∧ ToLower containerName = containerName
   ∧ blobName ≠ "" ∧ blobs.CopyID input ≠ "")
  ∨ (containerName = "" ∨ ToLower containerName ≠ containerName
     ∨ blobName = "" ∨ blobs.CopyID input = "").
Proof.
  destruct (decide (containerName = "")); [tauto|].
  destruct (decide (ToLower containerName = containerName)); [|tauto].
  destruct (decide (blobName = "")); [tauto|].
  destruct (decide (blobs.CopyID input = "")); tauto.
Qed.

(** The three shapes a log of calls can have. *)
Local Abbreviation protocol c log :=
  (log = []
   ∨ (∃ opts err, log = [NewRequestCalled opts]
                  ∧ onNewRequest c opts = inl err)
   ∨ (∃ opts req, log = [NewRequestCalled opts; ExecuteCalled req]
                  ∧ onNewRequest c opts = inr req)).

(** X3: a run of [SetMetaData] or [AbortCopy] makes no call, or one
    call to [NewRequest] that returned an error, or one call to
    [NewRequest] followed by one call to [Execute] on the very request
    [NewRequest] returned.  Nothing is called twice, and [Execute] is
    never called on anything else. *)
Theorem one_round_trip_at_most (c : BaseClient) :
  (∀ queueName input, protocol c (calls c (SetMetaData queueName input)))
  ∧ (∀ containerName blobName input,
       protocol c (calls c (AbortCopy containerName blobName input))).
Proof.
  split.
  - intros queueName input.
    destruct (SetMetaData_valid_dec queueName input) as [(?&?&?)|Hbad].
    + unfold calls. rewrite SetMetaData_accepted by done. cbn zeta.
      destruct (onNewRequest c _) as [err|req] eqn:Hnew; simpl snd;
        [right; left|right; right]; eauto.
    + destruct (SetMetaData_rejected _ _ _ _ Hbad) as (msg & -> & _).
      by left.
  - intros containerName blobName input.
    destruct (AbortCopy_valid_dec containerName blobName input)
      as [(?&?&?&?)|Hbad].
    + unfold calls. rewrite AbortCopy_accepted by done. cbn zeta.
      destruct (onNewRequest c _) as [err|req] eqn:Hnew; simpl snd;
        [right; left|right; right]; eauto.
    + destruct (AbortCopy_rejected _ _ _ _ Hbad) as (msg & -> & _).
      by left.
Qed.

(** X4: [SetMetaData] and [AbortCopy] return a [nil] error exactly when
    the request was built and [Execute] returned a [nil] error; the
    response returned is then whatever response pointer [Execute]
    returned, a [nil] one included. *)
Theorem success_is_a_clean_Execute (c : BaseClient) :
  (∀ queueName input resp,
     result c (SetMetaData queueName input) = (resp, None)
     ↔ ∃ opts req,
         calls c (SetMetaData queueName input)
           = [NewRequestCalled opts; ExecuteCalled req]
         ∧ onExecute c req = (queues.HttpResponse resp, None))
  ∧ (∀ containerName blobName input resp,
     result c (AbortCopy containerName blobName input) = (resp, None)
     ↔ ∃ opts req,
         calls c (AbortCopy containerName blobName input)
           = [NewRequestCalled opts; ExecuteCalled req]
         ∧ onExecute c req = (blobs.HttpResponse resp, None)).
Proof.
  split.
  - intros queueName input resp.
    destruct (SetMetaData_valid_dec queueName input) as [(?&?&?)|Hbad].
    + unfold calls, result. rewrite SetMetaData_accepted by done. cbn zeta.
      destruct (onNewRequest c _) as [err|req] eqn:Hnew; simpl.
      * split; [discriminate|]. intros (? & ? & ? & _). discriminate.
      * destruct (onExecute c req) as [httpResponse [err|]] eqn:Hexec; simpl.
        -- split; [discriminate|]. intros (? & ? & ? & ?). simplify_eq.
           congruence.
        -- split.
           ++ intros [= <-]. by eexists _, _.
           ++ intros (? & ? & ? & Hsame). simplify_eq.
              rewrite Hexec in Hsame. destruct resp. by simplify_eq.
    + destruct (SetMetaData_rejected _ _ _ _ Hbad) as (msg & Hret & _).
      unfold calls, result. rewrite Hret. simpl.
      split; [discriminate|]. intros (? & ? & ? & _). discriminate.
  - intros containerName blobName input resp.
    destruct (AbortCopy_valid_dec containerName blobName input)
      as [(?&?&?&?)|Hbad].
    + unfold calls, result. rewrite AbortCopy_accepted by done. cbn zeta.
      destruct (onNewRequest c _) as [err|req] eqn:Hnew; simpl.
      * split; [discriminate|]. intros (? & ? & ? & _). discriminate.
      * destruct (onExecute c req) as [httpResponse [err|]] eqn:Hexec; simpl.
        -- split; [discriminate|]. intros (? & ? & ? & ?). simplify_eq.
           congruence.
        -- split.
           ++ intros [= <-]. by eexists _, _.
           ++ intros (? & ? & ? & Hsame). simplify_eq.
              rewrite Hexec in Hsame. destruct resp. by simplify_eq.
    + destruct (AbortCopy_rejected _ _ _ _ Hbad) as (msg & Hret & _).
      unfold calls, result. rewrite Hret. simpl.
      split; [discriminate|]. intros (? & ? & ? & _). discriminate.
Qed.

Lemma ToLower_ascii_changed name :
  strings.isASCII name = true →
  ToLower name ≠ name ↔ strings.hasUpper name = true.
Proof.
  intros Hascii. split.
  - intros Hne. destruct (strings.hasUpper name) eqn:Hup; [done|].
    by rewrite ToLower_ascii_lower in Hne.
  - by apply ToLower_ascii_upper.
Qed.

(** X5: for an ASCII name the validation is about emptiness and case
    alone.  [SetMetaData] makes no call exactly when the queue name is
    empty or has a letter [A]-[Z] or the validator rejects the
    metadata; [AbortCopy] makes no call exactly when the container name
    is empty or has a letter [A]-[Z], or the blob name or the copy ID
    is empty.  No other byte of a name, and no length, is looked at. *)
Theorem ascii_names_checked_for_case_only (c : BaseClient) :
  (∀ queueName input,
     strings.isASCII queueName = true →
     calls c (SetMetaData queueName input) = []
     ↔ queueName = "" ∨ strings.hasUpper queueName = true
       ∨ is_Some (Validate (queues.MetaData input)))
  ∧ (∀ containerName blobName input,
     strings.isASCII containerName = true →
     calls c (AbortCopy containerName blobName input) = []
     ↔ containerName = "" ∨ strings.hasUpper containerName = true
       ∨ blobName = "" ∨ blobs.CopyID input = "").
Proof.
  split.
  - intros queueName input Hascii.
    rewrite <- (ToLower_ascii_changed queueName Hascii).
    destruct (SetMetaData_valid_dec queueName input) as [(?&?&Hv)|Hbad].
    + destruct (SetMetaData_accepted_calls mapUnicodeToLower Validate c
                  queueName input) as (rest & -> & _); [done..|].
      split; [discriminate|]. rewrite Hv. intros [?|[?|[? ?]]]; done.
    + destruct (SetMetaData_rejected _ _ _ _ Hbad) as (msg & Hret & _).
      unfold calls. by rewrite Hret.
  - intros containerName blobName input Hascii.
    rewrite <- (ToLower_ascii_changed containerName Hascii).
    destruct (AbortCopy_valid_dec containerName blobName input)
      as [(?&?&?&?)|Hbad].
    + destruct (AbortCopy_accepted_calls mapUnicodeToLower c
                  containerName blobName input) as (rest & -> & _); [done..|].
      split; [discriminate|]. intros [?|[?|[?|?]]]; done.
    + destruct (AbortCopy_rejected _ _ _ _ Hbad) as (msg & Hret & _).
      unfold calls. by rewrite Hret.
Qed.

Lemma slash_separates (c1 c2 b1 b2 : string) :
  ¬ In "/"%char (list_ascii_of_string c1) →
  ¬ In "/"%char (list_ascii_of_string c2) →
  c1 +:+ "/" +:+ b1 = c2 +:+ "/" +:+ b2 → c1 = c2 ∧ b1 = b2.
Proof.
  revert c2. induction c1 as [|a c1 IH]; intros [|a' c2] H1 H2 Heq;
    simpl in *.
  - by simplify_eq.
  - injection Heq as <- _. tauto.
  - injection Heq as -> _. tauto.
  - injection Heq as -> Heq.
    destruct (IH c2) as [-> ->]; [tauto..|done|done].
Qed.

(** X6: the path [AbortCopy] builds tells the container and the blob
    apart when the container names have no [/]: two accepted calls with
    such container names and the same path have the same container and
    blob names.  A [/] in a container name is neither rejected nor
    escaped, and then two different pairs can share a path. *)
Theorem AbortCopy_path_separates_names (c : BaseClient) :
  (∀ container1 blob1 input1 container2 blob2 input2 opts1 rest1 opts2 rest2,
     ¬ In "/"%char (list_ascii_of_string container1) →
     ¬ In "/"%char (list_ascii_of_string container2) →
     calls c (AbortCopy container1 blob1 input1)
       = NewRequestCalled opts1 :: rest1 →
     calls c (AbortCopy container2 blob2 input2)
       = NewRequestCalled opts2 :: rest2 →
     Path opts1 = Path opts2 →
     container1 = container2 ∧ blob1 = blob2)
  ∧ (∀ input, blobs.CopyID input ≠ "" →
     ∃ opts1 rest1 opts2 rest2,
       calls c (AbortCopy "a/b" "c" input) = NewRequestCalled opts1 :: rest1
       ∧ calls c (AbortCopy "a" "b/c" input) = NewRequestCalled opts2 :: rest2
       ∧ Path opts1 = Path opts2).
Proof.
  split.
  - intros container1 blob1 input1 container2 blob2 input2
      opts1 rest1 opts2 rest2 Hno1 Hno2 Hlog1 Hlog2 Hpath.
    apply AbortCopy_called in Hlog1 as (_ & _ & _ & _ & ->).
    apply AbortCopy_called in Hlog2 as (_ & _ & _ & _ & ->).
    simpl in Hpath. injection Hpath as Hpath.
    by apply slash_separates.
  - intros input Hid.
    destruct (AbortCopy_accepted_calls mapUnicodeToLower c "a/b" "c" input)
      as (rest1 & Hlog1 & _); [done..|].
    destruct (AbortCopy_accepted_calls mapUnicodeToLower c "a" "b/c" input)
      as (rest2 & Hlog2 & _); [done..|].
    by eexists _, rest1, _, rest2.
Qed.

(** X7: the headers and the query parameters of an abort-copy options
    object determine its input: two inputs with the same headers and
    the same query have the same copy ID and the same lease ID. *)
Theorem copyAbortOptions_determined (o1 o2 : blobs.copyAbortOptions) :
  ToHeaders o1 = ToHeaders o2 → ToQuery o1 = ToQuery o2 → o1 = o2.
Proof.
  destruct o1 as [[id1 lease1]], o2 as [[id2 lease2]].
  intros Hheaders Hquery.
  pose proof (copyAbortOptions_ToHeaders
                {| blobs.CopyID := id1; blobs.LeaseID := lease1 |})
    as (_ & H1 & _).
  pose proof (copyAbortOptions_ToHeaders
                {| blobs.CopyID := id2; blobs.LeaseID := lease2 |})
    as (_ & H2 & _).
  rewrite Hheaders, H2 in H1. simpl in H1. subst lease2.
  apply (f_equal (λ q : gmap string string, q !! "copyid")) in Hquery.
  simpl in Hquery. unfold QueryParams_Append in Hquery.
  rewrite !lookup_insert_eq in Hquery. by simplify_eq.
Qed.

(** X17: an accepted [SetMetaData] call hands over the metadata it was
    given and nothing else: in the options object passed to
    [NewRequest], the header [x-ms-meta-] followed by a key holds what
    [input.MetaData] holds at that key, whatever the queue name is, and
    with no metadata there is no header at all. *)
Theorem SetMetaData_sends_the_metadata c queueName input :
  queueName ≠ "" → ToLower queueName = queueName →
  Validate (queues.MetaData input) = None →
  ∃ opts rest,
    calls c (SetMetaData queueName input) = NewRequestCalled opts :: rest
    ∧ (∀ k, headersOf (OptionsObject opts) !! ("x-ms-meta-" +:+ k)
            = queues.MetaData input !! k)
    ∧ size (headersOf (OptionsObject opts)) = size (queues.MetaData input)
    ∧ (queues.MetaData input = ∅ → headersOf (OptionsObject opts) = ∅).
Proof.
  intros Hq Hl Hv.
  destruct (SetMetaData_accepted_calls mapUnicodeToLower Validate c
              queueName input) as (rest & Hlog & _); [done..|].
  eexists _, rest. split; [exact Hlog|]. simpl.
  rewrite Headers_Merge_into_empty. unfold metadata.SetMetaDataHeaders.
  split_and!.
  - intros k. apply (lookup_kmap (String.append "x-ms-meta-")).
  - apply size_kmap_prefixed.
  - intros ->. apply kmap_empty.
Qed.

End OperationRuns.

(** ** Metadata headers under updates of the metadata *)
Section MetadataUpdates.
Import client metadata.

Local Abbreviation prefixed := (String.append "x-ms-meta-").

(** X8: [SetIntoHeaders] follows the metadata entry by entry: no
    metadata gives no header, and only no metadata does; setting an
    entry sets its one header, removing an entry removes its one
    header, and the headers of two mappings merged (the first one
    winning on a shared key) are the headers of each merged the same
    way. *)
Theorem SetIntoHeaders_follows_updates (m m' : gmap string string) (k v : string) :
  SetIntoHeaders ∅ = ∅
  ∧ (SetIntoHeaders m = ∅ ↔ m = ∅)
  ∧ SetIntoHeaders (<[k := v]> m)
    = <["x-ms-meta-" +:+ k := v]> (SetIntoHeaders m)
  ∧ SetIntoHeaders (delete k m)
    = delete ("x-ms-meta-" +:+ k) (SetIntoHeaders m)
  ∧ SetIntoHeaders (m ∪ m') = SetIntoHeaders m ∪ SetIntoHeaders m'.
Proof.
  rewrite !SetIntoHeaders_kmap. split_and!.
  - apply kmap_empty.
  - apply (kmap_empty_iff prefixed).
  - apply (kmap_insert prefixed).
  - apply (kmap_delete prefixed).
  - apply (kmap_union prefixed).
Qed.

(** X9: different metadata never give the same headers: the headers
    [SetIntoHeaders] builds are equal exactly when the mappings are. *)
Theorem SetIntoHeaders_injective (m1 m2 : gmap string string) :
  SetIntoHeaders m1 = SetIntoHeaders m2 ↔ m1 = m2.
Proof.
  split; [|by intros ->]. rewrite !SetIntoHeaders_kmap.
  apply (inj (kmap prefixed)).
Qed.

End MetadataUpdates.

(** ** The client constructors *)
Section Constructors.
Import client.
Variable NewBaseClient : string → string → string → error + BaseClient.
Variables componentName apiVersion : string.

(** X10: [NewWithBaseUri] of [directories] and of [paths] returns a
    client or an error, never both and never neither.  The client wraps
    the very base client that [storage.NewBaseClient] built for the
    given URI with the package's component name and API version; the
    error is the error of [storage.NewBaseClient] behind
    [building base client: ]. *)
Theorem NewWithBaseUri_client_or_error (baseUri : string) :
  let built := NewBaseClient baseUri componentName apiVersion in
  let d := directories.NewWithBaseUri NewBaseClient componentName apiVersion
             baseUri in
  let p := paths.NewWithBaseUri NewBaseClient componentName apiVersion
             baseUri in
  (is_Some d.1 ↔ d.2 = None)
  ∧ (∀ cl, d.1 = Some cl ↔ built = inr (directories.Client' cl))
  ∧ (∀ msg, d.2 = Some msg
            ↔ ∃ err, built = inl err ∧ msg = "building base client: " +:+ err)
  ∧ (is_Some p.1 ↔ p.2 = None)
  ∧ (∀ cl, p.1 = Some cl ↔ built = inr (paths.Client' cl))
  ∧ (∀ msg, p.2 = Some msg
            ↔ ∃ err, built = inl err ∧ msg = "building base client: " +:+ err).
Proof.
  unfold directories.NewWithBaseUri, paths.NewWithBaseUri.
  assert (∀ (err msg : string),
            Some ("building base client: " +:+ err) = Some msg
            ↔ ∃ err' : string,
                inl err =@{string + BaseClient} inl err'
                ∧ msg = "building base client: " +:+ err') as Hwrapped.
  { intros err msg. split; [intros [= <-]; eauto|].
    by intros (err' & [= <-] & ->). }
  assert (∀ (base : BaseClient) (msg : string),
            None = Some msg
            ↔ ∃ err' : string,
                inr base =@{string + BaseClient} inl err'
                ∧ msg = "building base client: " +:+ err') as Hnone.
  { intros base msg. split; [discriminate|]. by intros (? & [=] & _). }
  destruct (NewBaseClient baseUri componentName apiVersion) as [err|base];
    simpl.
  - split_and!; [|by split|apply Hwrapped| |by split|apply Hwrapped];
      (split; [by intros [? [=]]|discriminate]).
  - split_and!; [by split; eauto| |apply Hnone|by split; eauto| |apply Hnone];
      intros [base']; simpl; (split; by intros [= <-]).
Qed.

End Constructors.

(** ** The test helpers *)
Section TestHelperFacts.
Import storageaccounts testhelpers.
Context `{Constants}.
Variable s : Services.
Variable c : Client.

(** The region read from the environment. *)
Local Abbreviation location := (s (Getenv "ARM_TEST_LOCATION") : string).

Local Abbreviation createGroup resourceGroup :=
  (GroupsCreateOrUpdate resourceGroup {| resources.Location := Some location |}).

Local Abbreviation accountId resourceGroup name :=
  (commonids.NewStorageAccountID (SubscriptionId c) resourceGroup name).

#[warnings="-inconsistent-scopes"]
Local Abbreviation payloadFor kind enableHns sku := {|
  Kind := kind;
  Location := location;
  Properties := Some {|
    AccessTier :=
      if decide (kind = KindBlobStorage) then Some AccessTierHot else None;
    AllowBlobPublicAccess := Some true;
    IsHnsEnabled := if enableHns : bool then Some true else None;
    PublicNetworkAccess := Some PublicNetworkAccessEnabled
  |};
  Sku' := {| Name := if decide (sku = "") then SkuNameStandardLRS else sku |}
|}.

Local Abbreviation createAccount resourceGroup name kind enableHns sku :=
  (AccountsCreateThenPoll (accountId resourceGroup name)
     (payloadFor kind enableHns sku)).

Local Abbreviation listKeys resourceGroup name :=
  (AccountsListKeys (accountId resourceGroup name) mkListKeysOperationOptions).

(** The value of the first key of a listing, if every pointer on the
    way is set and there is a first key. *)
Local Abbreviation firstKey keys :=
  (((Model keys ≫= Keys) ≫= head) ≫= Value).

Lemma buildTestResources_run resourceGroup name kind enableHns sku :
  run s (buildTestResources c resourceGroup name kind enableHns sku)
  = match s (createGroup resourceGroup) : option error with
    | Some err =>
        (Returned (None, Some ("error creating Resource Group "
                               +:+ Quote resourceGroup +:+ ": " +:+ err)),
         [Getenv "ARM_TEST_LOCATION"; createGroup resourceGroup])
    | None =>
      match s (createAccount resourceGroup name kind enableHns sku)
            : option error with
      | Some err =>
          (Returned (None, Some ("error creating Account " +:+ Quote name
                                 +:+ " (Resource Group " +:+ Quote resourceGroup
                                 +:+ "): " +:+ err)),
           [Getenv "ARM_TEST_LOCATION"; createGroup resourceGroup;
            createAccount resourceGroup name kind enableHns sku])
      | None =>
        match (s (listKeys resourceGroup name)
               : ListKeysOperationResponse * option error) with
        | (keys, Some err) =>
            (Returned (None, Some ("error listing keys for Storage Account "
                                   +:+ Quote name +:+ " (Resource Group "
                                   +:+ Quote resourceGroup +:+ "): " +:+ err)),
             [Getenv "ARM_TEST_LOCATION"; createGroup resourceGroup;
              createAccount resourceGroup name kind enableHns sku;
              listKeys resourceGroup name])
        | (keys, None) =>
            (match firstKey keys with
             | Some value =>
                 Returned (Some {| ResourceGroup := resourceGroup;
                                   StorageAccountName := name;
                                   StorageAccountKey' := value |}, None)
             | None => Panicked
             end,
             [Getenv "ARM_TEST_LOCATION"; createGroup resourceGroup;
              createAccount resourceGroup name kind enableHns sku;
              listKeys resourceGroup name; Sleep 5000000000])
        end
      end
    end.
Proof.
  unfold buildTestResources. cbn.
  destruct (s (GroupsCreateOrUpdate _ _)) as [err|]; [done|]. cbn.
  destruct enableHns; cbn.
  all: destruct (s (AccountsCreateThenPoll _ _)) as [err|]; [done|]; cbn.
  all: destruct (s (AccountsListKeys _ _)) as [keys [err|]]; [done|]; cbn.
  all: destruct keys as [[[[[|[[value|]] rest]|]]|]]; done.
Qed.

Ltac in_log H :=
  repeat (apply elem_of_cons in H as [H|H]; [try discriminate H|]);
  try (by apply elem_of_nil in H).

(** X11: [buildTestResources] stops at the first call that fails and
    returns no resources with an error that names the stage: when the
    resource group cannot be created no account is created; when the
    account cannot be created its keys are not listed; when the keys
    cannot be listed the helper does not sleep. *)
Theorem buildTestResources_stops_at_first_failure
    resourceGroup name kind enableHns sku err :
  ((s (createGroup resourceGroup) : option error) = Some err →
   run s (buildTestResources c resourceGroup name kind enableHns sku)
   = (Returned (None, Some ("error creating Resource Group "
                            +:+ Quote resourceGroup +:+ ": " +:+ err)),
      [Getenv "ARM_TEST_LOCATION"; createGroup resourceGroup]))
  ∧ ((s (createGroup resourceGroup) : option error) = None →
     (s (createAccount resourceGroup name kind enableHns sku) : option error)
       = Some err →
     run s (buildTestResources c resourceGroup name kind enableHns sku)
     = (Returned (None, Some ("error creating Account " +:+ Quote name
                              +:+ " (Resource Group " +:+ Quote resourceGroup
                              +:+ "): " +:+ err)),
        [Getenv "ARM_TEST_LOCATION"; createGroup resourceGroup;
         createAccount resourceGroup name kind enableHns sku]))
  ∧ ((s (createGroup resourceGroup) : option error) = None →
     (s (createAccount resourceGroup name kind enableHns sku) : option error)
       = None →
     (s (listKeys resourceGroup name)
      : ListKeysOperationResponse * option error).2 = Some err →
     run s (buildTestResources c resourceGroup name kind enableHns sku)
     = (Returned (None, Some ("error listing keys for Storage Account "
                              +:+ Quote name +:+ " (Resource Group "
                              +:+ Quote resourceGroup +:+ "): " +:+ err)),
        [Getenv "ARM_TEST_LOCATION"; createGroup resourceGroup;
         createAccount resourceGroup name kind enableHns sku;
         listKeys resourceGroup name])).
Proof.
  rewrite buildTestResources_run. split_and!.
  - by intros ->.
  - by intros -> ->.
  - intros -> ->. destruct (s (AccountsListKeys _ _)) as [keys o]. simpl.
    by intros ->.
Qed.

Lemma buildTestResources_created
    resourceGroup name kind enableHns sku id payload :
  AccountsCreateThenPoll id payload
    ∈ (run s (buildTestResources c resourceGroup name kind enableHns sku)).2 →
  id = accountId resourceGroup name
  ∧ payload = payloadFor kind enableHns sku
  ∧ createGroup resourceGroup
    ∈ (run s (buildTestResources c resourceGroup name kind enableHns sku)).2.
Proof.
  rewrite buildTestResources_run.
  destruct (s (GroupsCreateOrUpdate _ _)) as [err|]; simpl;
    [intros Hin; in_log Hin|].
  destruct (s (AccountsCreateThenPoll _ _)) as [err|]; simpl;
    [|destruct (s (AccountsListKeys _ _)) as [keys [err|]]; simpl].
  all: intros Hin; in_log Hin; simplify_eq.
  all: split_and!; try done.
  all: rewrite !elem_of_cons; tauto.
Qed.

(** X12: the account [buildTestResources] asks for.  Whenever the
    helper creates a storage account, it does so under the ID made of
    the client's subscription, the resource group and the name, in the
    region the resource group was created in just before, with the
    given kind, with the given SKU, or [Standard_LRS] when that is
    empty, with public blob access allowed and public network access
    enabled, with the hot access tier exactly for the kind
    [BlobStorage], and with the hierarchical namespace exactly when it
    was asked for. *)
Theorem buildTestResources_payload
    resourceGroup name kind enableHns sku id payload :
  AccountsCreateThenPoll id payload
    ∈ (run s (buildTestResources c resourceGroup name kind enableHns sku)).2 →
  id = commonids.NewStorageAccountID (SubscriptionId c) resourceGroup name
  ∧ Kind payload = kind
  ∧ GroupsCreateOrUpdate resourceGroup
      {| resources.Location := Some (Location payload) |}
    ∈ (run s (buildTestResources c resourceGroup name kind enableHns sku)).2
  ∧ Name (Sku' payload) = (if decide (sku = "") then SkuNameStandardLRS else sku)
  ∧ ∃ props,
      Properties payload = Some props
      ∧ AllowBlobPublicAccess props = Some true
      ∧ PublicNetworkAccess props = Some PublicNetworkAccessEnabled
      ∧ AccessTier props
        = (if decide (kind = KindBlobStorage) then Some AccessTierHot else None)
      ∧ IsHnsEnabled props = (if enableHns then Some true else None).
Proof.
  intros Hin.
  apply buildTestResources_created in Hin as (-> & -> & Hgroup).
  simpl. split_and!; try done.
  eexists. split_and!; reflexivity.
Qed.

(** X13: [buildTestResources] returns resources exactly when the three
    service calls succeed and the listing has a first key with a
    value.  The resources then carry the given resource group and
    account name and the value of that first key, the error is [nil],
    and the helper has made its calls in the order: read the region,
    create the group, create the account, list the keys, sleep five
    seconds. *)
Theorem buildTestResources_success
    resourceGroup name kind enableHns sku resources err :
  (run s (buildTestResources c resourceGroup name kind enableHns sku)).1
    = Returned (Some resources, err)
  ↔ err = None
    ∧ ResourceGroup resources = resourceGroup
    ∧ StorageAccountName resources = name
    ∧ (s (createGroup resourceGroup) : option error) = None
    ∧ (s (createAccount resourceGroup name kind enableHns sku) : option error)
      = None
    ∧ (∃ keys,
         (s (listKeys resourceGroup name)
          : ListKeysOperationResponse * option error) = (keys, None)
         ∧ firstKey keys = Some (StorageAccountKey' resources))
    ∧ (run s (buildTestResources c resourceGroup name kind enableHns sku)).2
      = [Getenv "ARM_TEST_LOCATION"; createGroup resourceGroup;
         createAccount resourceGroup name kind enableHns sku;
         listKeys resourceGroup name; Sleep 5000000000].
Proof.
  rewrite buildTestResources_run.
  destruct (s (GroupsCreateOrUpdate _ _)) as [e|]; simpl;
    [split; [discriminate|by intros (_&_&_&?&_)]|].
  destruct (s (AccountsCreateThenPoll _ _)) as [e|]; simpl;
    [split; [discriminate|by intros (_&_&_&_&?&_)]|].
  destruct (s (AccountsListKeys _ _)) as [keys [e|]]; simpl;
    [split; [discriminate|by intros (_&_&_&_&_&(?&?&_)&_)]|].
  destruct (firstKey keys) as [value|] eqn:Hkey; simpl.
  - split.
    + intros [= <- <-]. split_and!; try done. by exists keys.
    + intros (-> & <- & <- & _ & _ & (keys' & [= <-] & Hkey') & _).
      rewrite Hkey in Hkey'. destruct resources. by simplify_eq.
  - split; [discriminate|].
    intros (_ & _ & _ & _ & _ & (keys' & [= <-] & Hkey') & _).
    by rewrite Hkey in Hkey'.
Qed.

(** X14: [buildTestResources] panics exactly when the three service
    calls succeed and the listing has no first key with a value (a
    [nil] model, [nil] keys, an empty list of keys as in the last part,
    or a first key whose value is [nil]); by then the resource group
    and the account have been created and the helper has slept. *)
Theorem buildTestResources_panics_without_a_key
    resourceGroup name kind enableHns sku :
  ((run s (buildTestResources c resourceGroup name kind enableHns sku)).1
     = Panicked
   ↔ (s (createGroup resourceGroup) : option error) = None
     ∧ (s (createAccount resourceGroup name kind enableHns sku) : option error)
       = None
     ∧ ∃ keys,
         (s (listKeys resourceGroup name)
          : ListKeysOperationResponse * option error) = (keys, None)
         ∧ firstKey keys = None)
  ∧ ((run s (buildTestResources c resourceGroup name kind enableHns sku)).1
       = Panicked →
     (run s (buildTestResources c resourceGroup name kind enableHns sku)).2
     = [Getenv "ARM_TEST_LOCATION"; createGroup resourceGroup;
        createAccount resourceGroup name kind enableHns sku;
        listKeys resourceGroup name; Sleep 5000000000])
  ∧ firstKey {| Model := Some {| Keys := Some [] |} |} = None.
Proof.
  rewrite buildTestResources_run.
  destruct (s (GroupsCreateOrUpdate _ _)) as [e|]; simpl;
    [split_and!; [split; [discriminate|by intros (?&_)]|discriminate|done]|].
  destruct (s (AccountsCreateThenPoll _ _)) as [e|]; simpl;
    [split_and!; [split; [discriminate|by intros (_&?&_)]|discriminate|done]|].
  destruct (s (AccountsListKeys _ _)) as [keys [e|]]; simpl;
    [split_and!;
     [split; [discriminate|by intros (_&_&(?&?&_))]|discriminate|done]|].
  destruct (firstKey keys) as [value|] eqn:Hkey; simpl; split_and!;
    try done; try discriminate.
  - split; [discriminate|]. intros (_ & _ & (keys' & [= <-] & Hkey')).
    by rewrite Hkey in Hkey'.
  - split; [|done]. intros _. split_and!; try done. by exists keys.
Qed.


Lemma DestroyTestResources_run resourceGroup name :
  run s (DestroyTestResources c resourceGroup name)
  = match s (AccountsDelete (accountId resourceGroup name)) : option error with
    | Some err =>
        (Returned (Some ("error deleting Account " +:+ Quote name
                         +:+ " (Resource Group " +:+ Quote resourceGroup
                         +:+ "): " +:+ err)),
         [AccountsDelete (accountId resourceGroup name)])
    | None =>
      match (s (GroupsDelete resourceGroup)
             : GroupsDeleteFuture * option error) with
      | (future, Some err) =>
          (Returned (Some ("error deleting Resource Group "
                           +:+ Quote resourceGroup +:+ ": " +:+ err)),
           [AccountsDelete (accountId resourceGroup name);
            GroupsDelete resourceGroup])
      | (future, None) =>
          (Returned
             match s (WaitForCompletionRef future) : option error with
             | Some err =>
                 Some ("error waiting for deletion of Resource Group "
                       +:+ Quote resourceGroup +:+ ": " +:+ err)
             | None => None
             end,
           [AccountsDelete (accountId resourceGroup name);
            GroupsDelete resourceGroup; WaitForCompletionRef future])
      end
    end.
Proof.
  unfold DestroyTestResources. cbn.
  destruct (s (AccountsDelete _)) as [err|]; [done|]. cbn.
  destruct (s (GroupsDelete _)) as [future [err|]]; [done|]. cbn.
  by destruct (s (WaitForCompletionRef _)) as [err|].
Qed.

(** X16: [DestroyTestResources] deletes the account, then the resource
    group, then waits on the future the group deletion returned, and
    stops at the first error.  It returns [nil] exactly when all three
    succeed; it never panics; when the account cannot be deleted the
    resource group is not touched; and it only ever waits on the future
    of a group deletion that returned no error. *)
Theorem DestroyTestResources_stages resourceGroup name :
  let id := commonids.NewStorageAccountID (SubscriptionId c) resourceGroup name in
  let deleted : GroupsDeleteFuture * option error :=
    s (GroupsDelete resourceGroup) in
  let r := run s (DestroyTestResources c resourceGroup name) in
  (r.1 = Returned None
   ↔ (s (AccountsDelete id) : option error) = None
     ∧ deleted.2 = None
     ∧ (s (WaitForCompletionRef deleted.1) : option error) = None)
  ∧ r.1 ≠ Panicked
  ∧ (∃ rest, r.2 = AccountsDelete id :: rest)
  ∧ ((s (AccountsDelete id) : option error) ≠ None →
     r.2 = [AccountsDelete id])
  ∧ (∀ future, WaitForCompletionRef future ∈ r.2 →
       future = deleted.1 ∧ deleted.2 = None
       ∧ r.2 = [AccountsDelete id; GroupsDelete resourceGroup;
                WaitForCompletionRef future]).
Proof.
  cbn zeta. rewrite DestroyTestResources_run.
  destruct (s (AccountsDelete _)) as [err|]; simpl.
  { split_and!; try done; eauto.
    - split; [discriminate|by intros (?&_)].
    - intros future Hin. in_log Hin. }
  destruct (s (GroupsDelete _)) as [future [err|]]; simpl.
  { split_and!; try done; eauto.
    - split; [discriminate|by intros (_&?&_)].
    - intros future' Hin. in_log Hin. }
  split_and!; try done; eauto.
  - destruct (s (WaitForCompletionRef _)) as [err|].
    + split; [discriminate|by intros (_&_&?)].
    + done.
  - intros future' Hin. in_log Hin. by simplify_eq.
Qed.

End TestHelperFacts.

(** ** The further properties at concrete inputs *)
Section FurtherInstances.
Import client.

Local Abbreviation lower := scenario.mapUnicodeToLower.

Lemma SetMetaData_first_failing_check_witness :
  scenario.SetMetaData "" scenario.owner
    = Ret ({| queues.HttpResponse := None |},
           Some "`queueName` cannot be an empty string")
  ∧ queues.SetMetaData lower scenario.onlyEmpty "MyQueue" scenario.owner
    = Ret ({| queues.HttpResponse := None |},
           Some "`queueName` must be a lower-cased string").
Proof.
  split.
  - destruct (SetMetaData_first_failing_check lower scenario.acceptAll
                "" scenario.owner) as (Hempty & _).
    apply Hempty. reflexivity.
  - destruct (SetMetaData_first_failing_check lower scenario.onlyEmpty
                "MyQueue" scenario.owner) as (_ & Hlower & _).
    apply Hlower; [discriminate|vm_compute; discriminate].
Defined.

Lemma AbortCopy_first_failing_check_witness :
  scenario.AbortCopy "mycontainer" "" (scenario.leased "")
    = Ret ({| blobs.HttpResponse := None |},
           Some "`blobName` cannot be an empty string")
  ∧ scenario.AbortCopy "mycontainer" "myblob.txt"
      {| blobs.CopyID := ""; blobs.LeaseID := None |}
    = Ret ({| blobs.HttpResponse := None |},
           Some "`input.CopyID` cannot be an empty string").
Proof.
  split.
  - destruct (AbortCopy_first_failing_check lower
                "mycontainer" "" (scenario.leased "")) as (_ & _ & Hblob & _).
    apply Hblob; [discriminate|reflexivity|reflexivity].
  - destruct (AbortCopy_first_failing_check lower "mycontainer" "myblob.txt"
                {| blobs.CopyID := ""; blobs.LeaseID := None |})
      as (_ & _ & _ & Hid).
    apply Hid; [discriminate|reflexivity|discriminate|reflexivity].
Defined.

Lemma success_is_a_clean_Execute_witness :
  ∃ opts req,
    calls (simulated 204) (scenario.SetMetaData "myqueue" scenario.owner)
      = [NewRequestCalled opts; ExecuteCalled req]
    ∧ onExecute (simulated 204) req = (Some {| StatusCode := 204 |}, None).
Proof.
  destruct (success_is_a_clean_Execute lower scenario.acceptAll (simulated 204))
    as [Hqueue _].
  apply (Hqueue "myqueue" scenario.owner
           {| queues.HttpResponse := Some {| StatusCode := 204 |} |}).
  reflexivity.
Defined.

Lemma ascii_names_checked_for_case_only_witness :
  strings.isASCII "my queue/1" = true
  ∧ calls (simulated 204) (scenario.SetMetaData "my queue/1" scenario.owner)
    ≠ []
  ∧ strings.isASCII "MyContainer" = true
  ∧ calls (simulated 204)
      (scenario.AbortCopy "MyContainer" "myblob.txt" scenario.abc123) = [].
Proof.
  destruct (ascii_names_checked_for_case_only lower scenario.acceptAll
              (simulated 204)) as [Hqueue Hcontainer].
  split_and!; [reflexivity| |reflexivity|].
  - intros Hnone.
    apply (Hqueue "my queue/1" scenario.owner) in Hnone; [|reflexivity].
    destruct Hnone as [Hempty|[Hupper|[err Hrejected]]]; discriminate.
  - apply (Hcontainer "MyContainer" "myblob.txt" scenario.abc123);
      [reflexivity|]. right; left. reflexivity.
Defined.

Lemma SetMetaData_sends_the_metadata_witness :
  ∃ opts rest,
    calls (simulated 204) (scenario.SetMetaData "myqueue" scenario.owner)
      = NewRequestCalled opts :: rest
    ∧ headersOf (OptionsObject opts) !! "x-ms-meta-owner" = Some "alice"
    ∧ size (headersOf (OptionsObject opts)) = 1.
Proof.
  destruct (SetMetaData_sends_the_metadata lower scenario.acceptAll
              (simulated 204) "myqueue" scenario.owner)
    as (opts & rest & Hlog & Hheader & Hsize & _);
    [discriminate|reflexivity|reflexivity|].
  exists opts, rest. split_and!; [exact Hlog| |exact Hsize].
  etrans; [exact (Hheader "owner")|reflexivity].
Defined.

Lemma AbortCopy_path_separates_names_witness :
  ¬ In "/"%char (list_ascii_of_string "mycontainer")
  ∧ ("mycontainer" = "mycontainer" ∧ "a/b.txt" = "a/b.txt").
Proof.
  destruct (AbortCopy_path_separates_names lower (simulated 204))
    as [Hseparate _].
  assert (¬ In "/"%char (list_ascii_of_string "mycontainer")) as Hnone.
  { simpl. intros Hin. repeat (destruct Hin as [Hin|Hin]; [discriminate|]).
    exact Hin. }
  split; [exact Hnone|].
  eapply (Hseparate "mycontainer" "a/b.txt" scenario.abc123
            "mycontainer" "a/b.txt" (scenario.leased "lease-1"));
    [exact Hnone|exact Hnone|reflexivity|reflexivity|reflexivity].
Defined.

Lemma copyAbortOptions_determined_witness :
  {| blobs.input := scenario.leased "lease-1" |}
  = {| blobs.input := scenario.leased "lease-1" |}.
Proof.
  apply (copyAbortOptions_determined
           {| blobs.input := scenario.leased "lease-1" |}
           {| blobs.input := scenario.leased "lease-1" |});
    reflexivity.
Defined.

Lemma SetIntoHeaders_follows_updates_witness :
  metadata.SetIntoHeaders {[ "owner" := "alice" ]}
  = {[ "x-ms-meta-owner" := "alice" ]}.
Proof.
  destruct (SetIntoHeaders_follows_updates ∅ ∅ "owner" "alice")
    as (Hempty & _ & Hinsert & _).
  rewrite <- insert_empty, Hinsert, Hempty. reflexivity.
Defined.

Lemma SetIntoHeaders_injective_witness :
  ({[ "owner" := "alice" ]} : gmap string string) ≠ {[ "owner" := "bob" ]}
  ∧ metadata.SetIntoHeaders {[ "owner" := "alice" ]}
    ≠ metadata.SetIntoHeaders {[ "owner" := "bob" ]}.
Proof.
  assert (({[ "owner" := "alice" ]} : gmap string string)
          ≠ {[ "owner" := "bob" ]}) as Hne.
  { intros Heq.
    apply (f_equal (λ m : gmap string string, m !! "owner")) in Heq.
    discriminate Heq. }
  split; [exact Hne|].
  intros Heq. apply Hne.
  apply (SetIntoHeaders_injective {[ "owner" := "alice" ]}
           {[ "owner" := "bob" ]}).
  exact Heq.
Defined.

Lemma NewWithBaseUri_client_or_error_witness :
  (directories.NewWithBaseUri (λ _ _ _, inl "no such host") "file" "2023-11-03"
     "https://account.file.example").2
  = Some "building base client: no such host".
Proof.
  destruct (NewWithBaseUri_client_or_error (λ _ _ _, inl "no such host")
              "file" "2023-11-03" "https://account.file.example")
    as (_ & _ & Herr & _).
  apply Herr. exists "no such host". split; reflexivity.
Defined.

End FurtherInstances.

Section ProvisioningInstances.
Import storageaccounts testhelpers.

Local Abbreviation build :=
  (buildTestResources (H := provisioning.constants) provisioning.account
     "rg-1" "account1" "StorageV2" false "").

Lemma buildTestResources_stops_at_first_failure_witness :
  (run (provisioning.groupsFail "quota exceeded")
     build).2
  = [Getenv "ARM_TEST_LOCATION";
     GroupsCreateOrUpdate "rg-1" {| resources.Location := Some "westeurope" |}].
Proof.
  destruct (@buildTestResources_stops_at_first_failure provisioning.constants
              (provisioning.groupsFail "quota exceeded") provisioning.account
              "rg-1" "account1" "StorageV2" false "" "quota exceeded")
    as (Hgroup & _).
  rewrite Hgroup; reflexivity.
Defined.

Lemma buildTestResources_payload_witness :
  AccountsCreateThenPoll provisioning.accountId
    (provisioning.standardAccount None)
    ∈ (run (provisioning.healthy provisioning.twoKeys) build).2
  ∧ Name (Sku' (provisioning.standardAccount None)) = "Standard_LRS"
  ∧ GroupsCreateOrUpdate "rg-1" {| resources.Location := Some "westeurope" |}
    ∈ (run (provisioning.healthy provisioning.twoKeys) build).2.
Proof.
  assert (AccountsCreateThenPoll provisioning.accountId
            (provisioning.standardAccount None)
          ∈ (run (provisioning.healthy provisioning.twoKeys) build).2)
    as Hcreated.
  { apply list_elem_of_lookup. exists 2. reflexivity. }
  destruct (@buildTestResources_payload provisioning.constants
              (provisioning.healthy provisioning.twoKeys) provisioning.account
              "rg-1" "account1" "StorageV2" false ""
              provisioning.accountId (provisioning.standardAccount None)
              Hcreated)
    as (_ & _ & Hgroup & Hsku & _).
  split_and!; [exact Hcreated|exact Hsku|exact Hgroup].
Defined.

Lemma buildTestResources_success_witness :
  (run (provisioning.healthy provisioning.twoKeys)
     build).1
  = Returned (Some {| ResourceGroup := "rg-1";
                      StorageAccountName := "account1";
                      StorageAccountKey' := "key-1" |}, None).
Proof.
  apply (@buildTestResources_success provisioning.constants
           (provisioning.healthy provisioning.twoKeys) provisioning.account
           "rg-1" "account1" "StorageV2" false "").
  split_and!; try reflexivity.
  exists provisioning.twoKeys. split; reflexivity.
Defined.

Lemma buildTestResources_panics_without_a_key_witness :
  (run (provisioning.healthy provisioning.noKeys)
     build).1 = Panicked
  ∧ length (run (provisioning.healthy provisioning.noKeys)
              build).2 = 5.
Proof.
  destruct (@buildTestResources_panics_without_a_key provisioning.constants
              (provisioning.healthy provisioning.noKeys) provisioning.account
              "rg-1" "account1" "StorageV2" false "")
    as (Hpanic & Hlog & _).
  assert ((run (provisioning.healthy provisioning.noKeys)
             build).1 = Panicked)
    as Hpanicked.
  { apply Hpanic. split_and!; try reflexivity.
    exists provisioning.noKeys. split; reflexivity. }
  split; [exact Hpanicked|]. rewrite (Hlog Hpanicked). reflexivity.
Defined.


Lemma DestroyTestResources_stages_witness :
  (run (provisioning.groupsFail "locked")
     (DestroyTestResources (H := provisioning.constants) provisioning.account
        "rg-1" "account1")).1
  ≠ Returned None
  ∧ (run (provisioning.healthy provisioning.twoKeys)
       (DestroyTestResources (H := provisioning.constants) provisioning.account
          "rg-1" "account1")).1
    = Returned None.
Proof.
  split.
  - intros Hdone.
    destruct (@DestroyTestResources_stages provisioning.constants
                (provisioning.groupsFail "locked") provisioning.account
                "rg-1" "account1") as (Hall & _).
    apply Hall in Hdone as (_ & Hgroup & _). discriminate Hgroup.
  - destruct (@DestroyTestResources_stages provisioning.constants
                (provisioning.healthy provisioning.twoKeys)
                provisioning.account "rg-1" "account1") as (Hall & _).
    apply Hall. split_and!; reflexivity.
Defined.

End ProvisioningInstances.
